(** * The claude-gemini MCP server (server.py): JSON-RPC dispatch over stdin/stdout

    A shallow embedding of [src/server.py].  Python values that the server
    handles are the values [json.loads] produces; functions that can raise
    live in a small state-and-exception monad whose state is the state of the
    upstream Gemini service. *)

From Stdlib Require Import String Ascii List ZArith Bool Lia.
From Stdlib Require Import PrimFloat DecimalString.
Import ListNotations.
Local Open Scope string_scope.
Set Warnings "-register-all,-inexact-float".

(** ** Python values *)

(** The values [json.loads] returns: [None], [bool], [int], [float], [str],
    [list] and [dict] (insertion-ordered, keyed by strings). *)
Inductive json : Type :=
| JNull
| JBool (b : bool)
| JInt (n : Z)
| JFloat (x : float)
| JStr (s : string)
| JList (items : list json)
| JDict (entries : list (string * json)).

(** The exceptions (all subclasses of [Exception]) that occur in the server.
    [ValueError] stands for a plain [ValueError], not for its subclass
    [json.JSONDecodeError], which the loop treats apart. *)
Inductive exn : Type :=
| ValueError (msg : string)
| AttributeError (type_name attr : string)
| TypeError (msg : string)
| RecursionError (msg : string)
| UnicodeDecodeError (msg : string)
| UpstreamError (msg : string).

Inductive result (A : Type) : Type :=
| Return (a : A)
| Raise (e : exn).
Arguments Return {A} a.
Arguments Raise {A} e.

Definition LF : string := String "010"%char EmptyString.

(** [', '.join(xs)] and ['\n'.join(xs)]. *)
Fixpoint join (sep : string) (xs : list string) : string :=
  match xs with
  | [] => EmptyString
  | [x] => x
  | x :: rest => x ++ sep ++ join sep rest
  end.

(** [type(v).__name__] *)
Definition type_name (v : json) : string :=
  match v with
  | JNull => "NoneType"
  | JBool _ => "bool"
  | JInt _ => "int"
  | JFloat _ => "float"
  | JStr _ => "str"
  | JList _ => "list"
  | JDict _ => "dict"
  end.

(** [bool(v)]: the truth value Python's [if], [and] and [not] use. *)
Definition py_truthy (v : json) : bool :=
  match v with
  | JNull => false
  | JBool b => b
  | JInt n => negb (n =? 0)%Z
  | JFloat x => negb (PrimFloat.eqb x 0%float)
  | JStr s => negb (s =? EmptyString)
  | JList items => match items with [] => false | _ => true end
  | JDict entries => match entries with [] => false | _ => true end
  end.

(** [v == s] for a string literal [s]: only an equal [str] compares equal. *)
Definition py_eq_str (v : json) (s : string) : bool :=
  match v with
  | JStr t => t =? s
  | _ => false
  end.

(** [str(e)] for the exceptions above, in the wording of CPython 3.8-3.13. *)
Definition exn_str (e : exn) : string :=
  match e with
  | ValueError msg => msg
  | AttributeError ty attr =>
      "'" ++ ty ++ "' object has no attribute '" ++ attr ++ "'"
  | TypeError msg => msg
  | RecursionError msg => msg
  | UnicodeDecodeError msg => msg
  | UpstreamError msg => msg
  end.

(** Lookup in a [dict]: the entry for [key], if any. *)
Fixpoint dict_lookup (entries : list (string * json)) (key : string) : option json :=
  match entries with
  | [] => None
  | (k, v) :: rest => if k =? key then Some v else dict_lookup rest key
  end.

(** [d.get(key, default)] on a dict. *)
Definition dict_get (entries : list (string * json)) (key : string) (default : json) : json :=
  match dict_lookup entries key with
  | Some v => v
  | None => default
  end.

(** [v.get(key, default)] on an arbitrary value: only [dict] has [get]. *)
Definition py_get (v : json) (key : string) (default : json) : result json :=
  match v with
  | JDict entries => Return (dict_get entries key default)
  | _ => Raise (AttributeError (type_name v) "get")
  end.

Definition str_of_int (n : Z) : string := NilZero.string_of_int (Z.to_int n).

(** ** Module-level constants (lines 16-36) *)

Definition __version__ : string := "1.0.0".

Definition AVAILABLE_MODELS : list (string * string) :=
  [ ("gemini-2.5-flash", "Latest, best price-performance ratio");
    ("gemini-2.0-flash", "Newest multimodal with next-gen features");
    ("gemini-2.0-flash-lite", "Cost-efficient with low latency");
    ("gemini-1.5-pro-latest", "Powerful with long context (up to 1M tokens)");
    ("gemini-1.5-flash", "Fast and versatile multimodal");
    ("gemini-1.5-flash-8b", "Small model for simple tasks");
    ("gemini-1.0-pro-latest", "Legacy model with 32k context") ].

Definition DEFAULT_MODEL : string := "gemini-2.0-flash".

(** [name in AVAILABLE_MODELS] for a [str]. *)
Definition known_model (name : string) : bool :=
  existsb (fun kv => fst kv =? name) AVAILABLE_MODELS.

(** ** Process-wide state set at import time (lines 52-84) *)

(** The module globals the handlers read.  Python leaves [GEMINI_ERROR] unbound
    when the client is available and may leave [MODEL_NAME] unbound when it is
    not; the code reads neither in those states. *)
Record globals : Type := {
  GEMINI_AVAILABLE : bool;
  GEMINI_ERROR : string;
  MODEL_NAME : string;
  DEFAULT_SYSTEM_PROMPT : string;
  SYSTEM_PROMPT_FILE : string
}.

(** What the process finds around it when the module is loaded. *)
Record environment : Type := {
  genai_import_error : option string;       (* [str(e)] if the import raises *)
  GEMINI_API_KEY : option string;
  GEMINI_MODEL : option string;
  genai_configure_error : option string;    (* [str(e)] if [genai.configure] raises *)
  stderr_print_error : string -> option string; (* [str(e)] if printing the text to stderr raises *)
  genai_model_error : string -> option string; (* [str(e)] if [GenerativeModel(name)] raises *)
  system_prompt_path : string;              (* the expanded [SYSTEM_PROMPT_FILE] *)
  system_prompt_text : option string        (* [f.read().strip()] if the file exists and is readable *)
}.

Definition jsonrpc_error (code : Z) (message : string) : json :=
  JDict [("code", JInt code); ("message", JStr message)].

Definition error_envelope (request_id : json) (code : Z) (message : string) : json :=
  JDict [("jsonrpc", JStr "2.0"); ("id", request_id); ("error", jsonrpc_error code message)].

Definition result_envelope (request_id : json) (res : json) : json :=
  JDict [("jsonrpc", JStr "2.0"); ("id", request_id); ("result", res)].

Inductive startup_result : Type :=
| Exit (status : Z) (stdout_line : json)
| Running (g : globals).

Definition unavailable (env : environment) (err : string) (model_name : string) : globals :=
  {| GEMINI_AVAILABLE := false; GEMINI_ERROR := err; MODEL_NAME := model_name;
     DEFAULT_SYSTEM_PROMPT := EmptyString; SYSTEM_PROMPT_FILE := system_prompt_path env |}.

(** [load_system_prompt] (lines 39-50): the stripped file content, or the
    initial empty prompt when the file is missing or unreadable.  The note of
    line 47 is printed after the assignment and inside the function's own
    [try], so a failure to print it changes nothing. *)
Definition load_system_prompt (env : environment) : string :=
  match system_prompt_text env with
  | Some text => text
  | None => EmptyString
  end.

(** The warning of line 74.  Standard error was re-opened at line 14 with the
    locale's encoding and strict error handling, so printing it raises
    [UnicodeEncodeError] where that encoding has no warning sign. *)
Definition unknown_model_warning (name : string) : string :=
  "⚠️  Unknown model '" ++ name ++ "', using default '" ++ DEFAULT_MODEL ++ "'".

(** The [try] block of lines 53-84.  An exception raised anywhere in it,
    the warning's [print] included, leaves the client unavailable; when the
    warning cannot be printed [MODEL_NAME] keeps the unknown name, line 75 not
    being reached.  The line printed before [sys.exit(1)] is ASCII, which every
    encoding of standard output takes, and [SystemExit] is no [Exception], so
    the exit is not caught. *)
Definition startup (env : environment) : startup_result :=
  match genai_import_error env with
  | Some e => Running (unavailable env e DEFAULT_MODEL)
  | None =>
      let API_KEY :=
        match GEMINI_API_KEY env with Some k => k | None => "YOUR_API_KEY_HERE" end in
      if API_KEY =? "YOUR_API_KEY_HERE" then
        Exit 1 (JDict [("jsonrpc", JStr "2.0");
                       ("error", jsonrpc_error (-32603)
                          "Please set your Gemini API key in the server.py file or GEMINI_API_KEY environment variable")])
      else
        match genai_configure_error env with
        | Some e => Running (unavailable env e DEFAULT_MODEL)
        | None =>
            let name :=
              match GEMINI_MODEL env with Some m => m | None => DEFAULT_MODEL end in
            let validated :=
              if negb (name =? DEFAULT_MODEL) && negb (known_model name)
              then match stderr_print_error env (unknown_model_warning name) with
                   | Some e => inl e
                   | None => inr DEFAULT_MODEL
                   end
              else inr name in
            match validated with
            | inl e => Running (unavailable env e name)
            | inr name =>
                match genai_model_error env name with
                | Some e => Running (unavailable env e name)
                | None =>
                    Running {| GEMINI_AVAILABLE := true; GEMINI_ERROR := EmptyString;
                               MODEL_NAME := name;
                               DEFAULT_SYSTEM_PROMPT := load_system_prompt env;
                               SYSTEM_PROMPT_FILE := system_prompt_path env |}
                end
            end
        end
  end.

(** ** Handlers without a model call (lines 90-199) *)

(** [handle_initialize] (lines 90-105) *)
Definition handle_initialize (request_id : json) : json :=
  result_envelope request_id
    (JDict [("protocolVersion", JStr "2024-11-05");
            ("capabilities", JDict [("tools", JDict [])]);
            ("serverInfo", JDict [("name", JStr "claude-gemini-mcp");
                                  ("version", JStr __version__)])]).

Definition ask_gemini_tool (g : globals) : json :=
  JDict
    [("name", JStr "ask_gemini");
     ("description", JStr "Ask Gemini a question and get the response directly in Claude's context");
     ("inputSchema", JDict
        [("type", JStr "object");
         ("properties", JDict
            [("prompt", JDict
                [("type", JStr "string");
                 ("description", JStr "The question or prompt for Gemini")]);
             ("temperature", JDict
                [("type", JStr "number");
                 ("description", JStr "Temperature for response (0.0-1.0)");
                 ("default", JFloat 0.5%float)]);
             ("model", JDict
                [("type", JStr "string");
                 ("description",
                  JStr ("Model to use. Available: " ++ join ", " (map fst AVAILABLE_MODELS)
                        ++ ". Default: " ++ MODEL_NAME g));
                 ("default", JStr (MODEL_NAME g))]);
             ("include_system_prompt", JDict
                [("type", JStr "boolean");
                 ("description", JStr "Include system prompt from GEMINI.md. Default: true");
                 ("default", JBool true)])]);
         ("required", JList [JStr "prompt"])])].

Definition gemini_code_review_tool : json :=
  JDict
    [("name", JStr "gemini_code_review");
     ("description", JStr "Have Gemini review code and return feedback directly to Claude");
     ("inputSchema", JDict
        [("type", JStr "object");
         ("properties", JDict
            [("code", JDict
                [("type", JStr "string");
                 ("description", JStr "The code to review")]);
             ("focus", JDict
                [("type", JStr "string");
                 ("description", JStr "Specific focus area (security, performance, etc.)");
                 ("default", JStr "general")])]);
         ("required", JList [JStr "code"])])].

Definition gemini_brainstorm_tool : json :=
  JDict
    [("name", JStr "gemini_brainstorm");
     ("description", JStr "Brainstorm solutions with Gemini, response visible to Claude");
     ("inputSchema", JDict
        [("type", JStr "object");
         ("properties", JDict
            [("topic", JDict
                [("type", JStr "string");
                 ("description", JStr "The topic to brainstorm about")]);
             ("context", JDict
                [("type", JStr "string");
                 ("description", JStr "Additional context");
                 ("default", JStr EmptyString)])]);
         ("required", JList [JStr "topic"])])].

Definition server_info_tool : json :=
  JDict
    [("name", JStr "server_info");
     ("description", JStr "Get server status and error information");
     ("inputSchema", JDict
        [("type", JStr "object");
         ("properties", JDict [])])].

(** The local [tools] of [handle_tools_list] (lines 109-191). *)
Definition tools (g : globals) : list json :=
  if GEMINI_AVAILABLE g
  then [ask_gemini_tool g; gemini_code_review_tool; gemini_brainstorm_tool]
  else [server_info_tool].

(** [handle_tools_list] (lines 107-199) *)
Definition handle_tools_list (g : globals) (request_id : json) : json :=
  result_envelope request_id (JDict [("tools", JList (tools g))]).

(** The [name] entry of a tool descriptor. *)
Definition tool_name_of (tool : json) : json :=
  match tool with
  | JDict entries => dict_get entries "name" JNull
  | _ => JNull
  end.

(** [os.path.basename] on a POSIX path: what follows the last slash. *)
Fixpoint has_slash (path : string) : bool :=
  match path with
  | EmptyString => false
  | String c rest => (c =? "/")%char || has_slash rest
  end.

Fixpoint basename (path : string) : string :=
  match path with
  | EmptyString => EmptyString
  | String _ rest => if has_slash path then basename rest else path
  end.

(** The status text of the [server_info] branch (lines 242-250). *)
Definition server_info (g : globals) : string :=
  if GEMINI_AVAILABLE g then
    let system_info := "Server v" ++ __version__ ++ " - Gemini connected and ready!" in
    let system_info :=
      if negb (MODEL_NAME g =? DEFAULT_MODEL)
      then system_info ++ LF ++ "✨ Using model: " ++ MODEL_NAME g
      else system_info in
    let system_info :=
      if negb (DEFAULT_SYSTEM_PROMPT g =? EmptyString)
      then system_info ++ LF ++ "📝 System prompt loaded from " ++ basename (SYSTEM_PROMPT_FILE g)
      else system_info in
    system_info
  else "Server v" ++ __version__ ++ " - Gemini error: " ++ GEMINI_ERROR g.

(** ** The server proper *)

Section Server.

(** The upstream Gemini service: its state, and the whole of
    [GenerativeModel(name).generate_content(prompt, generation_config=
    GenerationConfig(temperature=..., max_output_tokens=...)).text], which yields
    the response text or raises. *)
Variable U : Type.
Variable generate : json -> json -> json -> Z -> U -> result string * U.

(** [repr] of a [float] and of a [str], as CPython prints them. *)
Variable float_repr : float -> string.
Variable str_repr : string -> string.

(** Computations that read and change the upstream state and may raise. *)
Definition M (A : Type) : Type := U -> result A * U.

Definition ret {A} (a : A) : M A := fun u => (Return a, u).

Definition raise {A} (e : exn) : M A := fun u => (Raise e, u).

Definition lift {A} (r : result A) : M A := fun u => (r, u).

Definition bind {A B} (m : M A) (k : A -> M B) : M B :=
  fun u =>
    match m u with
    | (Return a, u') => k a u'
    | (Raise e, u') => (Raise e, u')
    end.

(** [try: m  except Exception as e: handler e] *)
Definition try_except {A} (m : M A) (handler : exn -> M A) : M A :=
  fun u =>
    match m u with
    | (Return a, u') => (Return a, u')
    | (Raise e, u') => handler e u'
    end.

Notation "x <- m ;; k" := (bind m (fun x => k))
  (at level 61, m at next level, right associativity).

(** [repr(v)] and [str(v)], the latter being what an f-string inserts. *)
Fixpoint py_repr (v : json) : string :=
  match v with
  | JNull => "None"
  | JBool true => "True"
  | JBool false => "False"
  | JInt n => str_of_int n
  | JFloat x => float_repr x
  | JStr s => str_repr s
  | JList items => "[" ++ join ", " (map py_repr items) ++ "]"
  | JDict entries =>
      "{" ++ join ", " (map (fun kv => str_repr (fst kv) ++ ": " ++ py_repr (snd kv)) entries) ++ "}"
  end.

Definition py_str (v : json) : string :=
  match v with
  | JStr s => s
  | _ => py_repr v
  end.

(** *** [call_gemini] (lines 201-231) *)

(** The text returned at lines 207-208. *)
Definition unknown_model_text (model_name : json) : string :=
  "❌ Unknown model '" ++ py_str model_name ++ "'" ++ LF ++ LF ++ "Try one of these:" ++ LF
  ++ join LF (map (fun kv => "• " ++ fst kv ++ " - " ++ snd kv) AVAILABLE_MODELS).

(** [model_name not in AVAILABLE_MODELS]: the lookup hashes its key, which a
    list or a dict refuses; no other non-string equals a key. *)
Definition not_in_models (model_name : json) : result bool :=
  match model_name with
  | JStr s => Return (negb (known_model s))
  | JList _ | JDict _ => Raise (TypeError ("unhashable type: '" ++ type_name model_name ++ "'"))
  | _ => Return true
  end.

(** Lines 214-229, once [temp_model] and [model_name] are settled. *)
Definition generate_content (g : globals)
    (model_name prompt temperature include_system_prompt : json) : M string :=
  let final_prompt :=
    if py_truthy include_system_prompt && negb (DEFAULT_SYSTEM_PROMPT g =? EmptyString)
    then JStr (DEFAULT_SYSTEM_PROMPT g ++ LF ++ LF ++ "---" ++ LF ++ LF ++ "User Request:" ++ LF
               ++ py_str prompt)
    else prompt in
  text <- generate model_name final_prompt temperature 8192 ;;
  if negb (py_eq_str model_name DEFAULT_MODEL)
  then ret ("✨ Using " ++ py_str model_name ++ LF ++ LF ++ text)
  else ret text.

Definition call_gemini (g : globals)
    (prompt temperature model_name include_system_prompt : json) : M string :=
  try_except
    (if py_truthy model_name && negb (py_eq_str model_name (MODEL_NAME g)) then
       unknown <- lift (not_in_models model_name) ;;
       if (unknown : bool) then ret (unknown_model_text model_name)
       else generate_content g model_name prompt temperature include_system_prompt
     else
       generate_content g (JStr (MODEL_NAME g)) prompt temperature include_system_prompt)
    (fun e => ret ("Error calling Gemini: " ++ exn_str e)).

(** *** [handle_tool_call] (lines 233-317) *)

Definition code_review_prompt (focus code : json) : string :=
  "Please review this code with a focus on " ++ py_str focus ++ ":" ++ LF ++ LF
  ++ "```" ++ LF ++ py_str code ++ LF ++ "```" ++ LF ++ LF
  ++ "Provide specific, actionable feedback on:" ++ LF
  ++ "1. Potential issues or bugs" ++ LF
  ++ "2. Security concerns" ++ LF
  ++ "3. Performance optimizations" ++ LF
  ++ "4. Best practices" ++ LF
  ++ "5. Code clarity and maintainability".

Definition brainstorm_prompt (topic context : json) : string :=
  let prompt := "Let's brainstorm about: " ++ py_str topic in
  let prompt :=
    if py_truthy context then prompt ++ LF ++ LF ++ "Context: " ++ py_str context else prompt in
  prompt ++ LF ++ LF ++ "Provide creative ideas, alternatives, and considerations.".

Definition RESPONSE_MARKER : string := "🤖 GEMINI RESPONSE:" ++ LF ++ LF.

(** The success envelope of lines 297-308. *)
Definition tool_result (request_id : json) (text : string) : json :=
  result_envelope request_id
    (JDict [("content", JList [JDict [("type", JStr "text");
                                      ("text", JStr (RESPONSE_MARKER ++ text))]])]).

Definition not_available (g : globals) : string := "Gemini not available: " ++ GEMINI_ERROR g.

Definition handle_tool_call (g : globals) (request_id params : json) : M json :=
  tool_name <- lift (py_get params "name" JNull) ;;
  arguments <- lift (py_get params "arguments" (JDict [])) ;;
  try_except
    (result <-
       (if py_eq_str tool_name "server_info" then ret (server_info g)
        else if py_eq_str tool_name "ask_gemini" then
          if negb (GEMINI_AVAILABLE g) then ret (not_available g)
          else
            prompt <- lift (py_get arguments "prompt" (JStr EmptyString)) ;;
            temperature <- lift (py_get arguments "temperature" (JFloat 0.5%float)) ;;
            model_name <- lift (py_get arguments "model" JNull) ;;
            include_system <- lift (py_get arguments "include_system_prompt" (JBool true)) ;;
            call_gemini g prompt temperature model_name include_system
        else if py_eq_str tool_name "gemini_code_review" then
          if negb (GEMINI_AVAILABLE g) then ret (not_available g)
          else
            code <- lift (py_get arguments "code" (JStr EmptyString)) ;;
            focus <- lift (py_get arguments "focus" (JStr "general")) ;;
            call_gemini g (JStr (code_review_prompt focus code)) (JFloat 0.2%float) JNull (JBool true)
        else if py_eq_str tool_name "gemini_brainstorm" then
          if negb (GEMINI_AVAILABLE g) then ret (not_available g)
          else
            topic <- lift (py_get arguments "topic" (JStr EmptyString)) ;;
            context <- lift (py_get arguments "context" (JStr EmptyString)) ;;
            call_gemini g (JStr (brainstorm_prompt topic context)) (JFloat 0.7%float) JNull (JBool true)
        else raise (ValueError ("Unknown tool: " ++ py_str tool_name))) ;;
     ret (tool_result request_id result))
    (fun e => ret (error_envelope request_id (-32603) (exn_str e))).

(** *** [main] (lines 319-363) *)

(** One line of standard input, by what reading and decoding it (lines
    323-327) does: [json.loads(line.strip())] returns the decoded value, or
    raises [json.JSONDecodeError] (a blank line raises it too), or the read or
    the decoding raises another exception: [UnicodeDecodeError] from [readline]
    on bytes that are not text, [RecursionError] on brackets nested too deep,
    a plain [ValueError] on an integer of more than 4300 digits.  [readline]
    returns the empty string only when the input has ended; neither call
    raises [EOFError], so the handler of lines 352-353 is never entered. *)
Inductive line : Type :=
| Parsed (request : json)
| Malformed
| Unreadable (e : exn).

(** [send_response] (lines 86-88) prints [json.dumps(response)], which holds
    no newline, followed by one, and flushes: standard output grows by one
    line, recorded here as the document printed. *)
Definition send_response (response : json) : list json := [response].

(** The response of the last handler, lines 354-363. *)
Definition internal_error (request_id : json) (e : exn) : json :=
  error_envelope request_id (-32603) ("Internal error: " ++ exn_str e).

(** [except Exception as e]: a response goes out only if the local
    [request_id] is bound, by this iteration or by an earlier one. *)
Definition on_exception (request_id : option json) (e : exn) : list json :=
  match request_id with
  | Some rid => send_response (internal_error rid e)
  | None => []
  end.

(** Lines 332-346: the response to a decoded request. *)
Definition dispatch (g : globals) (method request_id params : json) : M json :=
  if py_eq_str method "initialize" then ret (handle_initialize request_id)
  else if py_eq_str method "tools/list" then ret (handle_tools_list g request_id)
  else if py_eq_str method "tools/call" then handle_tool_call g request_id params
  else ret (error_envelope request_id (-32601) ("Method not found: " ++ py_str method)).

(** One turn of the [while True] loop on a line that was read.  The local
    variable [request_id] is [None] while unbound.  The result is the lines
    [send_response] printed (each call prints one line and flushes), the binding
    of [request_id] and the upstream state after the turn. *)
Definition main_iteration (g : globals) (l : line) (request_id : option json) (u : U)
  : list json * option json * U :=
  match l with
  | Malformed => ([], request_id, u)
  | Unreadable e => (on_exception request_id e, request_id, u)
  | Parsed request =>
      match py_get request "method" JNull with
      | Raise e => (on_exception request_id e, request_id, u)
      | Return method =>
          match py_get request "id" JNull with
          | Raise e => (on_exception request_id e, request_id, u)
          | Return rid =>
              match py_get request "params" (JDict []) with
              | Raise e => (on_exception (Some rid) e, Some rid, u)
              | Return params =>
                  match dispatch g method rid params u with
                  | (Return response, u') => (send_response response, Some rid, u')
                  | (Raise e, u') => (on_exception (Some rid) e, Some rid, u')
                  end
              end
          end
      end
  end.

(** The loop over the lines of standard input; it ends with the input. *)
Fixpoint main_loop (g : globals) (lines : list line) (request_id : option json) (u : U)
  : list json * option json * U :=
  match lines with
  | [] => ([], request_id, u)
  | l :: rest =>
      let '(out, request_id', u') := main_iteration g l request_id u in
      let '(outs, request_id'', u'') := main_loop g rest request_id' u' in
      ((out ++ outs)%list, request_id'', u'')
  end.

(** [main()]: standard output and the upstream state when the input ends. *)
Definition main (g : globals) (lines : list line) (u : U) : list json * U :=
  let '(out, _, u') := main_loop g lines None u in (out, u').

(** ** Vocabulary of the properties *)

(** [needle in hay] for two strings. *)
Fixpoint contains (needle hay : string) : bool :=
  match hay with
  | EmptyString => prefix needle hay
  | String _ rest => prefix needle hay || contains needle rest
  end.

(** A text lists the known models when the name of each occurs in it. *)
Definition lists_known_models (text : string) : bool :=
  forallb (fun kv => contains (fst kv) text) AVAILABLE_MODELS.

(** The envelope has an [error] member, respectively a [result] member. *)
Definition is_error_envelope (response : json) : bool :=
  match response with
  | JDict entries => match dict_lookup entries "error" with Some _ => true | None => false end
  | _ => false
  end.

Definition is_result_envelope (response : json) : bool :=
  match response with
  | JDict entries => match dict_lookup entries "result" with Some _ => true | None => false end
  | _ => false
  end.



(** ** Sample data for concrete runs *)

(** Two upstream services whose state counts the calls made: one answers
    every call, the other is out of quota. *)
Definition pong_generate (model_name prompt temperature : json) (max_output_tokens : Z)
    (calls : nat) : result string * nat :=
  (Return "pong", S calls).

Definition failing_generate (model_name prompt temperature : json) (max_output_tokens : Z)
    (calls : nat) : result string * nat :=
  (Raise (UpstreamError "429 quota exceeded"), S calls).

(** An upstream that answers with the prompt it was sent. *)
Definition echo_generate (model_name prompt temperature : json) (max_output_tokens : Z)
    (calls : nat) : result string * nat :=
  (Return (match prompt with JStr s => s | _ => EmptyString end), S calls).

(** [repr] of a string without quotes, backslashes or control characters. *)
Definition plain_str_repr (s : string) : string := "'" ++ s ++ "'".

(** No sample run formats a float. *)
Definition unused_float_repr (x : float) : string := "0.0".

Definition sample_env : environment :=
  {| genai_import_error := None;
     GEMINI_API_KEY := Some "sample-key";
     GEMINI_MODEL := None;
     genai_configure_error := None;
     stderr_print_error := fun _ => None;
     genai_model_error := fun _ => None;
     system_prompt_path := "/home/dev/.claude-mcp-servers/gemini-collab/GEMINI.md";
     system_prompt_text := None |}.

Definition available_globals : globals :=
  {| GEMINI_AVAILABLE := true; GEMINI_ERROR := EmptyString; MODEL_NAME := "gemini-2.0-flash";
     DEFAULT_SYSTEM_PROMPT := EmptyString;
     SYSTEM_PROMPT_FILE := "/home/dev/.claude-mcp-servers/gemini-collab/GEMINI.md" |}.

Definition unavailable_globals : globals :=
  {| GEMINI_AVAILABLE := false; GEMINI_ERROR := "No module named 'google'";
     MODEL_NAME := "gemini-2.0-flash"; DEFAULT_SYSTEM_PROMPT := EmptyString;
     SYSTEM_PROMPT_FILE := "/home/dev/.claude-mcp-servers/gemini-collab/GEMINI.md" |}.

(** [{"name": tool, "arguments": arguments}] *)
Definition call_params (tool : string) (arguments : list (string * json)) : list (string * json) :=
  [("name", JStr tool); ("arguments", JDict arguments)].

(** [{"jsonrpc": "2.0", "id": id, "method": method, "params": params}] *)
Definition request (id : json) (method : string) (params : json) : list (string * json) :=
  [("jsonrpc", JStr "2.0"); ("id", id); ("method", JStr method); ("params", params)].

(** ** Vocabulary of the further properties *)

Definition is_dict (v : json) : bool :=
  match v with JDict _ => true | _ => false end.

(** [hash(v)] succeeds: lists and dicts are the unhashable JSON values. *)
Definition hashable (v : json) : bool :=
  match v with JList _ | JDict _ => false | _ => true end.


(** [v[key]] when [v] is a dict that has the key. *)
Definition member (v : json) (key : string) : option json :=
  match v with
  | JDict entries => dict_lookup entries key
  | _ => None
  end.

(** The default a tool descriptor advertises for a parameter:
    [tool["inputSchema"]["properties"][param]["default"]]. *)
Definition schema_default (tool : json) (param : string) : option json :=
  match member tool "inputSchema" with
  | Some schema =>
      match member schema "properties" with
      | Some properties =>
          match member properties param with
          | Some description => member description "default"
          | None => None
          end
      | None => None
      end
  | None => None
  end.

(** A JSON-RPC response of this server: version 2.0, an [id], and then either
    a [result], or an [error] with code -32601 or -32603 and a message. *)
Definition well_formed_envelope (response : json) : bool :=
  match response with
  | JDict [("jsonrpc", JStr version); ("id", _); (kind, body)] =>
      (version =? "2.0")
      && ((kind =? "result")
          || ((kind =? "error")
              && match body with
                 | JDict [("code", JInt code); ("message", JStr _)] =>
                     (code =? -32601)%Z || (code =? -32603)%Z
                 | _ => false
                 end))
  | _ => false
  end.

(** The prompt sent upstream (lines 215-217). *)
Definition final_prompt (g : globals) (prompt include_system_prompt : json) : json :=
  if py_truthy include_system_prompt && negb (DEFAULT_SYSTEM_PROMPT g =? EmptyString)
  then JStr (DEFAULT_SYSTEM_PROMPT g ++ LF ++ LF ++ "---" ++ LF ++ LF ++ "User Request:" ++ LF
             ++ py_str prompt)
  else prompt.

(** The arguments with which the branch of a model tool calls [call_gemini]
    (lines 256-260, 266-280 and 286-292): prompt, temperature, model name and
    system-prompt flag. *)
Definition model_call_arguments (tool : string) (arguments : list (string * json))
  : option (json * json * json * json) :=
  if tool =? "ask_gemini" then
    Some (dict_get arguments "prompt" (JStr EmptyString),
          dict_get arguments "temperature" (JFloat 0.5%float),
          dict_get arguments "model" JNull,
          dict_get arguments "include_system_prompt" (JBool true))
  else if tool =? "gemini_code_review" then
    Some (JStr (code_review_prompt (dict_get arguments "focus" (JStr "general"))
                  (dict_get arguments "code" (JStr EmptyString))),
          JFloat 0.2%float, JNull, JBool true)
  else if tool =? "gemini_brainstorm" then
    Some (JStr (brainstorm_prompt (dict_get arguments "topic" (JStr EmptyString))
                  (dict_get arguments "context" (JStr EmptyString))),
          JFloat 0.7%float, JNull, JBool true)
  else None.

(** The model [call_gemini] calls the upstream for (lines 205-212), when it
    calls it: the selected model unless the argument is truthy and differs
    from it, in which case the argument if it is a known model name. *)
Definition model_used (g : globals) (model_name : json) : option string :=
  if py_truthy model_name && negb (py_eq_str model_name (MODEL_NAME g)) then
    match model_name with
    | JStr s => if known_model s then Some s else None
    | _ => None
    end
  else Some (MODEL_NAME g).

(** The sample environment with [GEMINI_MODEL] set, and with what printing
    to standard error does. *)
Definition override_env (model : string) (print_error : option string) : environment :=
  {| genai_import_error := None;
     GEMINI_API_KEY := Some "sample-key";
     GEMINI_MODEL := Some model;
     genai_configure_error := None;
     stderr_print_error := fun _ => print_error;
     genai_model_error := fun _ => None;
     system_prompt_path := "/home/dev/.claude-mcp-servers/gemini-collab/GEMINI.md";
     system_prompt_text := None |}.

(** An upstream that refuses one prompt and answers every other. *)
Definition refusing_generate (model_name prompt temperature : json) (max_output_tokens : Z)
    (calls : nat) : result string * nat :=
  if py_eq_str prompt "tell me a secret"
  then (Raise (UpstreamError "400 prompt was blocked"), S calls)
  else (Return "pong", S calls).

(** A server whose client is available and has a system prompt loaded. *)
Definition prompted_globals : globals :=
  {| GEMINI_AVAILABLE := true; GEMINI_ERROR := EmptyString; MODEL_NAME := "gemini-2.0-flash";
     DEFAULT_SYSTEM_PROMPT := "Answer in one sentence.";
     SYSTEM_PROMPT_FILE := "/home/dev/.claude-mcp-servers/gemini-collab/GEMINI.md" |}.

(** * Properties *)

(** ** The monad and the values *)

Lemma bind_ret {A B} (a : A) (k : A -> M B) (u : U) : bind (ret a) k u = k a u.
Proof. reflexivity. Qed.

Lemma bind_raise {A B} (e : exn) (k : A -> M B) (u : U) : bind (raise e) k u = (Raise e, u).
Proof. reflexivity. Qed.

Lemma try_except_raise {A} (e : exn) (handler : exn -> M A) (u : U) :
  try_except (raise e) handler u = handler e u.
Proof. reflexivity. Qed.

Lemma try_except_ret {A} (a : A) (handler : exn -> M A) (u : U) :
  try_except (ret a) handler u = (Return a, u).
Proof. reflexivity. Qed.

Lemma contains_append (needle pre hay : string) :
  contains needle hay = true -> contains needle (pre ++ hay) = true.
Proof.
  intros H. induction pre as [|c pre IH]; simpl; [exact H |].
  rewrite IH. apply orb_true_r.
Qed.

(** ** Start-up *)

(** An available client always runs a known model: an unknown [GEMINI_MODEL]
    is replaced by the default at lines 73-75. *)
Lemma startup_model_known (env : environment) (g : globals) :
  startup env = Running g -> GEMINI_AVAILABLE g = true -> known_model (MODEL_NAME g) = true.
Proof.
  unfold startup. intros H Ha.
  destruct (genai_import_error env); [inversion H; subst; discriminate |].
  destruct (_ =? "YOUR_API_KEY_HERE"); [discriminate |].
  destruct (genai_configure_error env); [inversion H; subst; discriminate |].
  cbv zeta in H.
  destruct (GEMINI_MODEL env) as [m|].
  - destruct (m =? DEFAULT_MODEL) eqn:Em; cbn [negb andb] in H.
    + apply String.eqb_eq in Em. subst m.
      destruct (genai_model_error env DEFAULT_MODEL); inversion H; subst;
        [discriminate | reflexivity].
    + destruct (known_model m) eqn:Ek; cbn [negb] in H.
      * destruct (genai_model_error env m); inversion H; subst; [discriminate | exact Ek].
      * destruct (stderr_print_error env (unknown_model_warning m));
          [inversion H; subst; discriminate |].
        destruct (genai_model_error env DEFAULT_MODEL); inversion H; subst;
          [discriminate | reflexivity].
  - change (negb (DEFAULT_MODEL =? DEFAULT_MODEL) && negb (known_model DEFAULT_MODEL))
      with false in H. cbv iota in H.
    destruct (genai_model_error env DEFAULT_MODEL); inversion H; subst;
      [discriminate | reflexivity].
Qed.

(** ** The transport loop *)

(** A request that is a JSON object binds [request_id] and is answered by
    the dispatcher, or by the last handler if the dispatcher raises. *)
Lemma main_iteration_object (g : globals) (entries : list (string * json))
    (request_id : option json) (u : U) :
  main_iteration g (Parsed (JDict entries)) request_id u =
  let rid := dict_get entries "id" JNull in
  match dispatch g (dict_get entries "method" JNull) rid
          (dict_get entries "params" (JDict [])) u with
  | (Return response, u') => ([response], Some rid, u')
  | (Raise e, u') => ([internal_error rid e], Some rid, u')
  end.
Proof. reflexivity. Qed.






(** ** The model call *)

Lemma call_gemini_total (g : globals) (prompt temperature model_name include : json) (u : U) :
  { r : string * U | call_gemini g prompt temperature model_name include u = (Return (fst r), snd r) }.
Proof.
  unfold call_gemini, try_except.
  match goal with |- context [match ?m u with _ => _ end] => destruct (m u) as [[s|e] u'] end.
  - exists (s, u'). reflexivity.
  - exists (("Error calling Gemini: " ++ exn_str e)%string, u'). reflexivity.
Qed.

(** (C9) [call_gemini] returns a string for every prompt, temperature, model
    name and system-prompt flag, whether the upstream call returns or raises:
    no exception leaves it. *)
Theorem call_gemini_never_raises :
  forall (g : globals) (prompt temperature model_name include_system_prompt : json) (u : U),
  exists (text : string) (u' : U),
    call_gemini g prompt temperature model_name include_system_prompt u = (Return text, u').
Proof.
  intros g prompt temperature model_name include_system_prompt u.
  unfold call_gemini, try_except.
  match goal with |- context [match ?m u with _ => _ end] => destruct (m u) as [[s|e] u'] end;
    do 2 eexists; reflexivity.
Qed.

(** (X21) A tool reads only its own parameters: [ask_gemini] reads
    [prompt], [temperature], [model] and [include_system_prompt];
    [gemini_code_review] reads [code] and [focus]; [gemini_brainstorm] reads
    [topic] and [context]; [server_info] reads none.  Two argument mappings
    that agree on those get the same response and make the same upstream call,
    so a code review or a brainstorm cannot be given a model, a temperature or
    a system-prompt flag. *)
Theorem tool_reads_only_its_parameters :
  forall (g : globals) (request_id : json) (tool : string) (keys : list string)
         (arguments1 arguments2 : list (string * json)) (u : U),
    In (tool, keys)
       [("ask_gemini", ["prompt"; "temperature"; "model"; "include_system_prompt"]);
        ("gemini_code_review", ["code"; "focus"]);
        ("gemini_brainstorm", ["topic"; "context"]);
        ("server_info", [])] ->
    (forall k, In k keys -> dict_lookup arguments1 k = dict_lookup arguments2 k) ->
    handle_tool_call g request_id (JDict (call_params tool arguments1)) u =
    handle_tool_call g request_id (JDict (call_params tool arguments2)) u.
Proof.
  intros g request_id tool keys arguments1 arguments2 u Hin Hagree.
  cbn [In] in Hin.
  destruct Hin as [Heq | [Heq | [Heq | [Heq | []]]]]; inversion Heq; subst tool keys; clear Heq;
    unfold handle_tool_call, call_params; cbn [py_get lift bind];
    unfold try_except, bind, dict_get;
    cbn [dict_lookup String.eqb Ascii.eqb Bool.eqb py_eq_str];
    try reflexivity;
    (destruct (GEMINI_AVAILABLE g); cbn [negb lift py_get]; [| reflexivity]);
    unfold dict_get;
    repeat match goal with
           | |- context [dict_lookup arguments1 ?k] =>
               rewrite (Hagree k) by (cbn [In]; auto 6)
           end;
    reflexivity.
Qed.

(** What [call_gemini] does once it calls the upstream: the answer is
    relayed, under a banner unless the model is the default one, and an
    exception becomes a text. *)
Lemma call_gemini_model_used (g : globals)
    (prompt temperature model_name include : json) (k : string) (u : U) :
  model_used g model_name = Some k ->
  call_gemini g prompt temperature model_name include u =
  match generate (JStr k) (final_prompt g prompt include) temperature 8192 u with
  | (Return text, u') =>
      (Return (if k =? DEFAULT_MODEL then text else "✨ Using " ++ k ++ LF ++ LF ++ text), u')
  | (Raise e, u') => (Return ("Error calling Gemini: " ++ exn_str e), u')
  end.
Proof.
  intros Hm.
  assert (Hgen :
    try_except (generate_content g (JStr k) prompt temperature include)
      (fun e => ret ("Error calling Gemini: " ++ exn_str e)) u
    = match generate (JStr k) (final_prompt g prompt include) temperature 8192 u with
      | (Return text, u') =>
          (Return (if k =? DEFAULT_MODEL then text else "✨ Using " ++ k ++ LF ++ LF ++ text), u')
      | (Raise e, u') => (Return ("Error calling Gemini: " ++ exn_str e), u')
      end).
  { unfold try_except, generate_content, bind. fold (final_prompt g prompt include).
    destruct (generate (JStr k) (final_prompt g prompt include) temperature 8192 u)
      as [[text|e] u']; [| reflexivity].
    cbn [py_eq_str py_str]. destruct (k =? DEFAULT_MODEL); reflexivity. }
  unfold model_used in Hm. unfold call_gemini.
  destruct (py_truthy model_name && negb (py_eq_str model_name (MODEL_NAME g))).
  - destruct model_name as [| b | n | x | s | items | entries]; try discriminate Hm.
    destruct (known_model s) eqn:Hk; [| discriminate Hm].
    injection Hm as <-. unfold lift, not_in_models. rewrite Hk. cbn [negb].
    change (try_except (generate_content g (JStr s) prompt temperature include)
              (fun e => ret ("Error calling Gemini: " ++ exn_str e)) u
            = match generate (JStr s) (final_prompt g prompt include) temperature 8192 u with
              | (Return text, u') =>
                  (Return (if s =? DEFAULT_MODEL then text
                           else "✨ Using " ++ s ++ LF ++ LF ++ text), u')
              | (Raise e, u') => (Return ("Error calling Gemini: " ++ exn_str e), u')
              end).
    exact Hgen.
  - injection Hm as <-. exact Hgen.
Qed.

(** The branch of a model tool on an available server: the envelope is built
    from what [call_gemini] returns on the branch's arguments. *)
Lemma handle_tool_call_model_tool (g : globals) (request_id : json)
    (params arguments : list (string * json)) (tool : string)
    (prompt temperature model_name include : json) (u : U) :
  GEMINI_AVAILABLE g = true ->
  dict_get params "name" JNull = JStr tool ->
  dict_get params "arguments" (JDict []) = JDict arguments ->
  model_call_arguments tool arguments = Some (prompt, temperature, model_name, include) ->
  handle_tool_call g request_id (JDict params) u =
  match call_gemini g prompt temperature model_name include u with
  | (Return text, u') => (Return (tool_result request_id text), u')
  | (Raise e, u') => (Return (error_envelope request_id (-32603) (exn_str e)), u')
  end.
Proof.
  intros Ha Hn Hargs Hcall. unfold model_call_arguments in Hcall.
  unfold handle_tool_call. cbn [py_get lift bind]. rewrite Hn, Hargs.
  unfold try_except, bind. cbn [py_eq_str].
  destruct (String.eqb_spec tool "ask_gemini") as [-> | _].
  { injection Hcall as <- <- <- <-.
    cbn [String.eqb Ascii.eqb Bool.eqb]. rewrite Ha. cbn [negb lift py_get].
    destruct (call_gemini g _ _ _ _ u) as [[text|e] u']; reflexivity. }
  destruct (String.eqb_spec tool "gemini_code_review") as [-> | _].
  { injection Hcall as <- <- <- <-.
    cbn [String.eqb Ascii.eqb Bool.eqb]. rewrite Ha. cbn [negb lift py_get].
    destruct (call_gemini g _ _ _ _ u) as [[text|e] u']; reflexivity. }
  destruct (String.eqb_spec tool "gemini_brainstorm") as [-> | _]; [| discriminate Hcall].
  injection Hcall as <- <- <- <-.
  cbn [String.eqb Ascii.eqb Bool.eqb]. rewrite Ha. cbn [negb lift py_get].
  destruct (call_gemini g _ _ _ _ u) as [[text|e] u']; reflexivity.
Qed.

(** ** Tool calls *)





Lemma unknown_model_text_lists_models (name : string) :
  lists_known_models (RESPONSE_MARKER ++ unknown_model_text (JStr name)) = true.
Proof.
  unfold lists_known_models. apply forallb_forall. intros [k v] Hin.
  unfold unknown_model_text, py_str. cbn [fst].
  do 3 apply contains_append.
  unfold AVAILABLE_MODELS in Hin. cbn [In] in Hin.
  repeat (destruct Hin as [Hin | Hin]; [inversion Hin; subst; vm_compute; reflexivity |]).
  contradiction.
Qed.

(** (C1, amended) On a server whose client is available, an [ask_gemini]
    call whose [model] argument is a non-empty string outside the known-model
    set is answered by a success envelope, not an error envelope; its text is
    the response marker followed by the unknown-model message, which names
    every known model.  No upstream call is made. *)
Theorem ask_unknown_model_is_tool_result :
  forall (env : environment) (g : globals) (request_id : json)
         (params arguments : list (string * json)) (name : string) (u : U),
    startup env = Running g ->
    GEMINI_AVAILABLE g = true ->
    dict_get params "name" JNull = JStr "ask_gemini" ->
    dict_get params "arguments" (JDict []) = JDict arguments ->
    dict_get arguments "model" JNull = JStr name ->
    name <> EmptyString ->
    known_model name = false ->
    handle_tool_call g request_id (JDict params) u =
      (Return (tool_result request_id (unknown_model_text (JStr name))), u)
    /\ is_result_envelope (tool_result request_id (unknown_model_text (JStr name))) = true
    /\ is_error_envelope (tool_result request_id (unknown_model_text (JStr name))) = false
    /\ lists_known_models (RESPONSE_MARKER ++ unknown_model_text (JStr name)) = true.
Proof.
  intros env g request_id params arguments name u Hs Ha Hn Hargs Hmodel Hne Hk.
  split; [| split; [reflexivity | split; [reflexivity | apply unknown_model_text_lists_models]]].
  assert (Hsel : (name =? MODEL_NAME g) = false).
  { apply String.eqb_neq. intros ->.
    rewrite (startup_model_known env g Hs Ha) in Hk. discriminate. }
  apply String.eqb_neq in Hne.
  unfold handle_tool_call. cbn [py_get lift bind]. rewrite Hn, Hargs.
  unfold try_except, bind. cbn [py_eq_str String.eqb Ascii.eqb Bool.eqb].
  rewrite Ha. cbn [negb lift py_get]. rewrite Hmodel.
  unfold call_gemini, try_except, bind, lift, not_in_models.
  cbn [py_truthy py_eq_str]. rewrite Hne, Hsel, Hk. reflexivity.
Qed.

(** (C3, amended) On a server whose client is available, a call of
    [ask_gemini], [gemini_code_review] or [gemini_brainstorm] with an argument
    mapping, whose upstream call raises [e], is answered by a success envelope
    whose text is the response marker followed by [Error calling Gemini: ] and
    [str(e)]; no error envelope is produced.  The upstream call is the one the
    request makes: for the model that [call_gemini] settles on, with the final
    prompt, the tool's temperature and 8192 output tokens. *)
Theorem upstream_failure_is_tool_result :
  forall (g : globals) (request_id : json) (params arguments : list (string * json))
         (tool : string) (prompt temperature model_name include_system_prompt : json)
         (k : string) (e : exn) (u u' : U),
    GEMINI_AVAILABLE g = true ->
    dict_get params "name" JNull = JStr tool ->
    dict_get params "arguments" (JDict []) = JDict arguments ->
    model_call_arguments tool arguments
      = Some (prompt, temperature, model_name, include_system_prompt) ->
    model_used g model_name = Some k ->
    generate (JStr k) (final_prompt g prompt include_system_prompt) temperature 8192 u
      = (Raise e, u') ->
    handle_tool_call g request_id (JDict params) u =
      (Return (tool_result request_id ("Error calling Gemini: " ++ exn_str e)), u')
    /\ is_result_envelope (tool_result request_id ("Error calling Gemini: " ++ exn_str e)) = true
    /\ is_error_envelope (tool_result request_id ("Error calling Gemini: " ++ exn_str e)) = false.
Proof.
  intros g request_id params arguments tool prompt temperature model_name include_system_prompt
         k e u u' Ha Hn Hargs Hcall Hmodel Hraise.
  split; [| split; reflexivity].
  rewrite (handle_tool_call_model_tool g request_id params arguments tool
             prompt temperature model_name include_system_prompt u Ha Hn Hargs Hcall).
  rewrite (call_gemini_model_used g prompt temperature model_name include_system_prompt k u Hmodel).
  rewrite Hraise. reflexivity.
Qed.

(** (C4, amended) A call of [ask_gemini], [gemini_code_review] or
    [gemini_brainstorm] whose argument mapping omits the required parameter
    ([prompt], [code], [topic]) is answered by a success envelope, and the
    answer is the one given when the parameter is passed as the empty
    string: the omission is defaulted, not reported. *)
Theorem missing_required_argument_is_defaulted :
  forall (g : globals) (request_id : json) (params arguments : list (string * json))
         (tool required : string) (u : U),
    dict_get params "name" JNull = JStr tool ->
    In (tool, required)
       [("ask_gemini", "prompt"); ("gemini_code_review", "code"); ("gemini_brainstorm", "topic")] ->
    dict_get params "arguments" (JDict []) = JDict arguments ->
    dict_lookup arguments required = None ->
    (exists text u',
        handle_tool_call g request_id (JDict params) u =
          (Return (tool_result request_id text), u'))
    /\ handle_tool_call g request_id (JDict params) u =
       handle_tool_call g request_id
         (JDict (call_params tool ((required, JStr EmptyString) :: arguments))) u.
Proof.
  intros g request_id params arguments tool required u Hn Htool Hargs Hmiss.
  unfold handle_tool_call. cbn [py_get lift bind]. rewrite Hn, Hargs.
  unfold try_except, bind.
  cbn [In] in Htool.
  destruct Htool as [Heq | [Heq | [Heq | []]]]; inversion Heq; subst tool required; clear Heq;
    cbn [py_eq_str String.eqb Ascii.eqb Bool.eqb call_params dict_get dict_lookup];
    (destruct (GEMINI_AVAILABLE g); cbn [negb lift py_get dict_get dict_lookup
                                           String.eqb Ascii.eqb Bool.eqb];
     [| split; [do 2 eexists; reflexivity | reflexivity]]);
    unfold dict_get; cbn [dict_lookup String.eqb Ascii.eqb Bool.eqb]; rewrite Hmiss;
    match goal with
    | |- context [call_gemini g ?p ?t ?m ?i u] =>
        destruct (call_gemini_total g p t m i u) as [[text u'] Hc]; rewrite Hc
    end;
    (split; [do 2 eexists; reflexivity | reflexivity]).
Qed.

(** * Further properties of the code *)

(** ** Start-up (lines 52-84) *)

(** (X1) The process exits at start-up exactly when the client library
    imports and the API key is unset or still the placeholder; it then exits
    with status 1 after printing one error object with code -32603 and no
    [id].  A failed import is caught before the key is looked at. *)
Theorem startup_exit_iff :
  forall (env : environment) (status : Z) (printed : json),
    startup env = Exit status printed <->
    (genai_import_error env = None
     /\ (GEMINI_API_KEY env = None \/ GEMINI_API_KEY env = Some "YOUR_API_KEY_HERE")
     /\ status = 1%Z
     /\ printed = JDict [("jsonrpc", JStr "2.0");
                         ("error", jsonrpc_error (-32603)
                            "Please set your Gemini API key in the server.py file or GEMINI_API_KEY environment variable")]).
Proof.
  intros env status printed. unfold startup. split.
  - destruct (genai_import_error env); [discriminate |].
    destruct (GEMINI_API_KEY env) as [k|].
    + destruct (String.eqb_spec k "YOUR_API_KEY_HERE") as [-> | Hk].
      * intros H. inversion H. auto.
      * destruct (genai_configure_error env); [discriminate |].
        cbv zeta.
        match goal with |- context [if ?c then _ else _] => destruct c end;
          [destruct (stderr_print_error env _); [discriminate |] |];
          match goal with |- context [genai_model_error env ?n] =>
            destruct (genai_model_error env n) end; discriminate.
    + cbn. intros H. inversion H. auto.
  - intros [Hi [Hk [-> ->]]]. rewrite Hi.
    destruct Hk as [-> | ->]; reflexivity.
Qed.

(** (X2) Whenever the server runs.  An available client has a model that
    is in [AVAILABLE_MODELS]: the model [GEMINI_MODEL] asks for if that is a
    known model, and otherwise the default model, in which case the warning
    of line 74 was printed without error; its system prompt is what
    [load_system_prompt] read.  An unavailable client has no system prompt,
    and its recorded error is the text of the exception raised by the import,
    by [genai.configure], by printing that warning (then [MODEL_NAME] is
    still the unknown name) or by [GenerativeModel]. *)
Theorem startup_running_state :
  forall (env : environment) (g : globals),
    startup env = Running g ->
    let requested :=
      match GEMINI_MODEL env with Some m => m | None => DEFAULT_MODEL end in
    let chosen := if known_model requested then requested else DEFAULT_MODEL in
    (GEMINI_AVAILABLE g = true ->
       MODEL_NAME g = chosen /\ known_model (MODEL_NAME g) = true
       /\ DEFAULT_SYSTEM_PROMPT g = load_system_prompt env
       /\ (known_model requested = false ->
           stderr_print_error env (unknown_model_warning requested) = None))
    /\ (GEMINI_AVAILABLE g = false ->
          DEFAULT_SYSTEM_PROMPT g = EmptyString
          /\ (genai_import_error env = Some (GEMINI_ERROR g)
              \/ genai_configure_error env = Some (GEMINI_ERROR g)
              \/ (known_model requested = false
                  /\ stderr_print_error env (unknown_model_warning requested)
                     = Some (GEMINI_ERROR g)
                  /\ MODEL_NAME g = requested)
              \/ genai_model_error env chosen = Some (GEMINI_ERROR g))).
Proof.
  intros env g H requested chosen.
  assert (Hcond : negb (requested =? DEFAULT_MODEL) && negb (known_model requested)
                  = negb (known_model requested)).
  { destruct (String.eqb_spec requested DEFAULT_MODEL) as [-> | _]; reflexivity. }
  unfold startup in H.
  destruct (genai_import_error env) as [e|] eqn:Hi.
  { inversion H; subst g. cbn. split; [discriminate | auto]. }
  destruct (_ =? "YOUR_API_KEY_HERE"); [discriminate |].
  destruct (genai_configure_error env) as [e|] eqn:Hc.
  { inversion H; subst g. cbn. split; [discriminate | auto]. }
  cbv zeta in H. fold requested in H. rewrite Hcond in H. subst chosen.
  destruct (known_model requested) eqn:Hk; cbn [negb] in H.
  - destruct (genai_model_error env requested) as [e|] eqn:Hm; inversion H; subst g; cbn.
    + split; [discriminate | auto 6].
    + split; [intros _; repeat split; [exact Hk | discriminate] | discriminate].
  - destruct (stderr_print_error env (unknown_model_warning requested)) as [e|] eqn:Hp.
    { inversion H; subst g. cbn. split; [discriminate | auto 8]. }
    destruct (genai_model_error env DEFAULT_MODEL) as [e|] eqn:Hm; inversion H; subst g; cbn.
    + split; [discriminate | auto 6].
    + split; [intros _; repeat split; reflexivity | discriminate].
Qed.

(** ** The dispatcher and the loop (lines 319-363) *)



(** (X5) A line that decodes to a JSON value other than an object:
    [request.get] raises before [request_id] is assigned.  If no earlier line
    bound [request_id] nothing is printed; otherwise one -32603 envelope is
    printed that carries the id of the last request object read, not one of
    this line.  The binding and the upstream are left as they were. *)
Theorem non_object_line_uses_last_id :
  forall (g : globals) (v : json) (request_id : option json) (u : U),
    is_dict v = false ->
    main_iteration g (Parsed v) request_id u =
      (match request_id with
       | Some last =>
           [error_envelope last (-32603)
              ("Internal error: '" ++ type_name v ++ "' object has no attribute 'get'")]
       | None => []
       end, request_id, u).
Proof.
  intros g v request_id u Hv.
  destruct v; try discriminate Hv; destruct request_id; reflexivity.
Qed.

Lemma handle_tool_call_envelope (g : globals) (request_id : json)
    (params : list (string * json)) (u : U) :
  { r : json * U | handle_tool_call g request_id (JDict params) u = (Return (fst r), snd r)
                   /\ well_formed_envelope (fst r) = true }.
Proof.
  unfold handle_tool_call. cbn [py_get lift bind]. unfold try_except.
  match goal with |- context [match ?m u with _ => _ end] => destruct (m u) as [[a|e] u'] eqn:E end.
  - unfold bind in E.
    match type of E with context [match ?m u with _ => _ end] =>
      destruct (m u) as [[text|e] u''] end; [| discriminate].
    inversion E; subst. exists (tool_result request_id text, u'). split; reflexivity.
  - exists (error_envelope request_id (-32603) (exn_str e), u'). split; reflexivity.
Qed.

(** (X6) [handle_tool_call] returns an envelope for every params mapping,
    whatever the tool name, the arguments (a mapping or not) and the upstream
    do: no exception leaves it, so the loop's [Internal error] handler is never
    reached from a tool call whose params are a mapping. *)
Theorem handle_tool_call_mapping_never_raises :
  forall (g : globals) (request_id : json) (params : list (string * json)) (u : U),
  exists (response : json) (u' : U),
    handle_tool_call g request_id (JDict params) u = (Return response, u')
    /\ well_formed_envelope response = true.
Proof.
  intros g request_id params u.
  destruct (handle_tool_call_envelope g request_id params u) as [[response u'] [Hr Hw]].
  exists response, u'. split; assumption.
Qed.

(** Every document one turn of the loop prints is a well-formed envelope,
    and a turn prints at most one. *)
Lemma main_iteration_output (g : globals) (l : line) (request_id : option json) (u : U) :
  Forall (fun r => well_formed_envelope r = true) (fst (fst (main_iteration g l request_id u)))
  /\ (List.length (fst (fst (main_iteration g l request_id u))) <= 1)%nat.
Proof.
  destruct l as [request | | e];
    [| split; [constructor | cbn; lia]
     | destruct request_id; cbn; split; [repeat constructor | lia | constructor | lia]].
  destruct request;
    try (destruct request_id; cbn; split; [repeat constructor | lia | constructor | lia]).
  rewrite main_iteration_object. cbv zeta. unfold dispatch.
  destruct (py_eq_str _ "initialize"); [cbn; split; [repeat constructor | lia] |].
  destruct (py_eq_str _ "tools/list"); [cbn; split; [repeat constructor | lia] |].
  destruct (py_eq_str _ "tools/call"); [| cbn; split; [repeat constructor | lia]].
  destruct (dict_get entries "params" (JDict [])) as [| | | | | |params];
    try (cbn; split; [repeat constructor | lia]).
  destruct (handle_tool_call_envelope g (dict_get entries "id" JNull) params u)
    as [[response u'] [Hr Hw]].
  cbn [fst snd] in Hr, Hw. rewrite Hr. cbn. split; [repeat constructor; exact Hw | lia].
Qed.

(** (X7) Whatever the input, every line [main] prints is a JSON-RPC
    envelope with version 2.0 and an id, holding either a result or an error
    whose code is -32601 or -32603, never both and never another code. *)
Theorem main_prints_envelopes :
  forall (g : globals) (lines : list line) (u : U),
    Forall (fun response => well_formed_envelope response = true) (fst (main g lines u)).
Proof.
  intros g lines u. unfold main.
  generalize (@None json) as request_id. revert u.
  induction lines as [|l lines IH]; intros u request_id; cbn [main_loop].
  - constructor.
  - pose proof (main_iteration_output g l request_id u) as [Hout _].
    destruct (main_iteration g l request_id u) as [[out r] v]. cbn [fst] in Hout.
    specialize (IH v r). destruct (main_loop g lines r v) as [[outs r'] v'].
    cbn [fst] in *. apply Forall_app. split; assumption.
Qed.




(** ** Tool calls (lines 233-317) *)

Lemma prefix_refl (s : string) : prefix s s = true.
Proof.
  induction s as [|c s IH]; [reflexivity |]. cbn.
  destruct (ascii_dec c c) as [_|ne]; [exact IH | now elim ne].
Qed.

Lemma contains_suffix (needle pre : string) : contains needle (pre ++ needle) = true.
Proof.
  apply contains_append. destruct needle as [|c s]; [reflexivity |].
  cbn [contains]. rewrite prefix_refl. reflexivity.
Qed.

(** (X11) While the client is unavailable, [ask_gemini],
    [gemini_code_review] and [gemini_brainstorm] are answered by a success
    envelope whose text is [Gemini not available: ] followed by the recorded
    start-up error.  The arguments are not read (they need not even be a
    mapping) and the upstream is not called. *)
Theorem unavailable_model_tools_report_error_text :
  forall (g : globals) (request_id : json) (params : list (string * json)) (tool : string) (u : U),
    GEMINI_AVAILABLE g = false ->
    dict_get params "name" JNull = JStr tool ->
    In tool ["ask_gemini"; "gemini_code_review"; "gemini_brainstorm"] ->
    handle_tool_call g request_id (JDict params) u =
      (Return (tool_result request_id ("Gemini not available: " ++ GEMINI_ERROR g)), u).
Proof.
  intros g request_id params tool u Ha Hn Htool.
  unfold handle_tool_call. cbn [py_get lift bind]. rewrite Hn.
  unfold try_except, bind.
  cbn [In] in Htool. destruct Htool as [<- | [<- | [<- | []]]];
    cbn [py_eq_str String.eqb Ascii.eqb Bool.eqb]; rewrite Ha; reflexivity.
Qed.

(** (X12) [server_info] is answered in both availability states by a success
    envelope holding the status text, without reading the arguments and without
    calling the upstream; when the client is unavailable the text contains the
    recorded start-up error. *)
Theorem server_info_always_answers :
  forall (g : globals) (request_id : json) (params : list (string * json)) (u : U),
    dict_get params "name" JNull = JStr "server_info" ->
    handle_tool_call g request_id (JDict params) u =
      (Return (tool_result request_id (server_info g)), u)
    /\ (GEMINI_AVAILABLE g = false -> contains (GEMINI_ERROR g) (server_info g) = true).
Proof.
  intros g request_id params u Hn. split.
  - unfold handle_tool_call. cbn [py_get lift bind]. rewrite Hn. reflexivity.
  - intros Ha. unfold server_info. rewrite Ha.
    apply (contains_suffix (GEMINI_ERROR g) ("Server v" ++ __version__ ++ " - Gemini error: ")).
Qed.

(** (X13) With the client available, a call of [ask_gemini],
    [gemini_code_review] or [gemini_brainstorm] whose [arguments] member is not
    a mapping is answered by an error envelope with code -32603 whose message
    is the attribute error itself (without the [Internal error: ] prefix of the
    loop's handler); the upstream is not called. *)
Theorem arguments_not_mapping_is_error :
  forall (g : globals) (request_id : json) (params : list (string * json)) (tool : string) (u : U),
    GEMINI_AVAILABLE g = true ->
    dict_get params "name" JNull = JStr tool ->
    In tool ["ask_gemini"; "gemini_code_review"; "gemini_brainstorm"] ->
    is_dict (dict_get params "arguments" (JDict [])) = false ->
    handle_tool_call g request_id (JDict params) u =
      (Return (error_envelope request_id (-32603)
                 ("'" ++ type_name (dict_get params "arguments" (JDict []))
                  ++ "' object has no attribute 'get'")), u).
Proof.
  intros g request_id params tool u Ha Hn Htool Hargs.
  unfold handle_tool_call. cbn [py_get lift bind]. rewrite Hn.
  unfold try_except, bind.
  cbn [In] in Htool. destruct Htool as [<- | [<- | [<- | []]]];
    cbn [py_eq_str String.eqb Ascii.eqb Bool.eqb]; rewrite Ha; cbn [negb];
    destruct (dict_get params "arguments" (JDict [])); try discriminate Hargs; reflexivity.
Qed.

(** (X14) Every tool that [tools/list] advertises, in either availability
    state, is served by [handle_tool_call]: a call naming it, with an argument
    mapping (or none), is answered by a success envelope, never by the
    [Unknown tool] error nor by any other error envelope. *)
Theorem advertised_tools_are_answered :
  forall (g : globals) (request_id tool : json) (params arguments : list (string * json)) (u : U),
    In tool (tools g) ->
    dict_get params "name" JNull = tool_name_of tool ->
    dict_get params "arguments" (JDict []) = JDict arguments ->
    exists (text : string) (u' : U),
      handle_tool_call g request_id (JDict params) u = (Return (tool_result request_id text), u').
Proof.
  intros g request_id tool params arguments u Hin Hn Hargs.
  assert (Hmodel : forall name p t m i,
            GEMINI_AVAILABLE g = true ->
            dict_get params "name" JNull = JStr name ->
            model_call_arguments name arguments = Some (p, t, m, i) ->
            exists (text : string) (u' : U),
              handle_tool_call g request_id (JDict params) u
              = (Return (tool_result request_id text), u')).
  { intros name p t m i Ha Hname Hcall.
    rewrite (handle_tool_call_model_tool g request_id params arguments name p t m i u
               Ha Hname Hargs Hcall).
    destruct (call_gemini_total g p t m i u) as [[text u'] Hc]. rewrite Hc.
    exists text, u'. reflexivity. }
  unfold tools in Hin. destruct (GEMINI_AVAILABLE g) eqn:Ha; cbn [In] in Hin.
  - destruct Hin as [<- | [<- | [<- | []]]]; cbn in Hn.
    + eapply (Hmodel "ask_gemini"); [reflexivity | exact Hn | reflexivity].
    + eapply (Hmodel "gemini_code_review"); [reflexivity | exact Hn | reflexivity].
    + eapply (Hmodel "gemini_brainstorm"); [reflexivity | exact Hn | reflexivity].
  - destruct Hin as [<- | []]. cbn in Hn.
    unfold handle_tool_call. cbn [py_get lift bind]. rewrite Hn.
    do 2 eexists. reflexivity.
Qed.

(** ** The model call (lines 201-231) *)

Lemma generate_content_state (g : globals) (model_name prompt temperature include : json) (u : U) :
  snd (generate_content g model_name prompt temperature include u)
  = snd (generate model_name (final_prompt g prompt include) temperature 8192 u).
Proof.
  unfold generate_content, bind. fold (final_prompt g prompt include).
  destruct (generate model_name (final_prompt g prompt include) temperature 8192 u) as [[text|e] u'].
  - destruct (negb (py_eq_str model_name DEFAULT_MODEL)); reflexivity.
  - reflexivity.
Qed.

(** Where [call_gemini] leaves the upstream: untouched, or after one call
    for the selected model or a known model. *)
Lemma call_gemini_state (g : globals) (prompt temperature model_name include : json) (u : U) :
  snd (call_gemini g prompt temperature model_name include u) = u
  \/ exists k,
       (k = MODEL_NAME g \/ known_model k = true)
       /\ snd (call_gemini g prompt temperature model_name include u)
          = snd (generate (JStr k) (final_prompt g prompt include) temperature 8192 u).
Proof.
  assert (Hgen : forall m,
    snd (try_except (generate_content g m prompt temperature include)
           (fun e => ret ("Error calling Gemini: " ++ exn_str e)) u)
    = snd (generate m (final_prompt g prompt include) temperature 8192 u)).
  { intros m. rewrite <- generate_content_state. unfold try_except.
    destruct (generate_content g m prompt temperature include u) as [[a|e] u']; reflexivity. }
  unfold call_gemini.
  destruct (py_truthy model_name && negb (py_eq_str model_name (MODEL_NAME g))).
  - destruct model_name as [| b | n | x | s | items | entries]; try (left; reflexivity).
    unfold not_in_models. destruct (known_model s) eqn:Hk; [| left; reflexivity].
    right. exists s. split; [now right |].
    change (snd (try_except (generate_content g (JStr s) prompt temperature include)
                   (fun e => ret ("Error calling Gemini: " ++ exn_str e)) u)
            = snd (generate (JStr s) (final_prompt g prompt include) temperature 8192 u)).
    apply Hgen.
  - right. exists (MODEL_NAME g). split; [now left | apply Hgen].
Qed.

(** (X15) One tool call makes at most one upstream call, with no retry: the
    upstream is left untouched, or in the state that a single
    [generate_content] call leaves it in, made for the selected model or a
    known model with [max_output_tokens] 8192. *)
Theorem tool_call_at_most_one_upstream_call :
  forall (g : globals) (request_id : json) (params : list (string * json)) (u : U),
    snd (handle_tool_call g request_id (JDict params) u) = u
    \/ exists (k : string) (prompt temperature : json),
         (k = MODEL_NAME g \/ known_model k = true)
         /\ snd (handle_tool_call g request_id (JDict params) u)
            = snd (generate (JStr k) prompt temperature 8192 u).
Proof.
  intros g request_id params u.
  assert (Hcall : forall p t m i,
    snd (try_except
           (bind (call_gemini g p t m i) (fun result => ret (tool_result request_id result)))
           (fun e => ret (error_envelope request_id (-32603) (exn_str e))) u) = u
    \/ exists (k : string) (prompt temperature : json),
         (k = MODEL_NAME g \/ known_model k = true)
         /\ snd (try_except
                   (bind (call_gemini g p t m i) (fun result => ret (tool_result request_id result)))
                   (fun e => ret (error_envelope request_id (-32603) (exn_str e))) u)
            = snd (generate (JStr k) prompt temperature 8192 u)).
  { intros p t m i.
    assert (Hs : snd (try_except
           (bind (call_gemini g p t m i) (fun result => ret (tool_result request_id result)))
           (fun e => ret (error_envelope request_id (-32603) (exn_str e))) u)
           = snd (call_gemini g p t m i u)).
    { unfold try_except, bind. destruct (call_gemini g p t m i u) as [[a|e] u']; reflexivity. }
    rewrite Hs. destruct (call_gemini_state g p t m i u) as [H | [k [Hk H]]]; [now left |].
    right. exists k, (final_prompt g p i), t. split; assumption. }
  unfold handle_tool_call. cbn [py_get lift bind].
  destruct (py_eq_str (dict_get params "name" JNull) "server_info") eqn:E1;
    [left; unfold try_except, bind; reflexivity |].
  destruct (py_eq_str (dict_get params "name" JNull) "ask_gemini") eqn:E2.
  { destruct (GEMINI_AVAILABLE g); cbn [negb]; [| left; unfold try_except, bind; reflexivity].
    destruct (dict_get params "arguments" (JDict [])) as [| | | | | |arguments];
      try (left; unfold try_except, bind; reflexivity).
    cbn [py_get lift bind]. apply Hcall. }
  destruct (py_eq_str (dict_get params "name" JNull) "gemini_code_review") eqn:E3.
  { destruct (GEMINI_AVAILABLE g); cbn [negb]; [| left; unfold try_except, bind; reflexivity].
    destruct (dict_get params "arguments" (JDict [])) as [| | | | | |arguments];
      try (left; unfold try_except, bind; reflexivity).
    cbn [py_get lift bind]. apply Hcall. }
  destruct (py_eq_str (dict_get params "name" JNull) "gemini_brainstorm") eqn:E4.
  { destruct (GEMINI_AVAILABLE g); cbn [negb]; [| left; unfold try_except, bind; reflexivity].
    destruct (dict_get params "arguments" (JDict [])) as [| | | | | |arguments];
      try (left; unfold try_except, bind; reflexivity).
    cbn [py_get lift bind]. apply Hcall. }
  left. unfold try_except, bind. reflexivity.
Qed.

(** (X16) A [model] argument that is falsy ([None], the empty string, [0],
    [false], an empty list or mapping) or names the selected model is the same
    as no [model] argument: the selected model is used. *)
Theorem falsy_or_selected_model_is_default :
  forall (g : globals) (prompt temperature model_name include_system_prompt : json) (u : U),
    py_truthy model_name = false \/ model_name = JStr (MODEL_NAME g) ->
    call_gemini g prompt temperature model_name include_system_prompt u =
    call_gemini g prompt temperature JNull include_system_prompt u.
Proof.
  intros g prompt temperature model_name include_system_prompt u [Hf | ->];
    unfold call_gemini.
  - rewrite Hf. reflexivity.
  - cbn [py_eq_str py_truthy]. rewrite String.eqb_refl, andb_false_r. reflexivity.
Qed.

(** (X17) A truthy [model] argument that is neither the selected model nor
    a known model name never reaches the upstream: [call_gemini] returns a text
    and leaves the upstream untouched.  For a hashable value (a string, a
    number, [true]) the text is the unknown-model message, which quotes
    [str(model)] and lists the known models. *)
Theorem unknown_model_never_reaches_upstream :
  forall (g : globals) (prompt temperature model_name include_system_prompt : json) (u : U),
    py_truthy model_name = true ->
    py_eq_str model_name (MODEL_NAME g) = false ->
    (forall k, model_name = JStr k -> known_model k = false) ->
    exists text : string,
      call_gemini g prompt temperature model_name include_system_prompt u = (Return text, u)
      /\ (hashable model_name = true ->
          text = unknown_model_text model_name
          /\ lists_known_models text = true).
Proof.
  intros g prompt temperature model_name include_system_prompt u Ht Hne Hk.
  assert (Hlists : lists_known_models (unknown_model_text model_name) = true).
  { unfold lists_known_models. apply forallb_forall. intros [k v] Hin.
    unfold unknown_model_text. cbn [fst]. do 2 apply contains_append.
    unfold AVAILABLE_MODELS in Hin. cbn [In] in Hin.
    repeat (destruct Hin as [Hin | Hin]; [inversion Hin; subst; vm_compute; reflexivity |]).
    contradiction. }
  unfold call_gemini, try_except, bind, lift. rewrite Ht, Hne. cbn [negb andb].
  destruct model_name as [| b | n | x | s | items | entries]; cbn [not_in_models];
    try (eexists; split; [reflexivity | intros _; split; [reflexivity | exact Hlists]]).
  - rewrite (Hk s eq_refl). cbn [negb].
    eexists; split; [reflexivity | intros _; split; [reflexivity | exact Hlists]].
  - eexists; split; [reflexivity | discriminate].
  - eexists; split; [reflexivity | discriminate].
Qed.

(** (X18) When the upstream answers a call for a known model, the text
    [call_gemini] returns is the answer itself if that model is the default
    model [gemini-2.0-flash], and otherwise the answer under a banner naming
    the model - also when the model is the one selected at start-up. *)
Theorem model_banner_unless_default :
  forall (g : globals) (prompt temperature include_system_prompt : json)
         (k text : string) (u u' : U),
    known_model k = true ->
    generate (JStr k) (final_prompt g prompt include_system_prompt) temperature 8192 u
      = (Return text, u') ->
    call_gemini g prompt temperature (JStr k) include_system_prompt u =
      (Return (if k =? DEFAULT_MODEL then text
               else "✨ Using " ++ k ++ LF ++ LF ++ text), u').
Proof.
  intros g prompt temperature include_system_prompt k text u u' Hk Hg.
  assert (Hgen :
    try_except (generate_content g (JStr k) prompt temperature include_system_prompt)
      (fun e => ret ("Error calling Gemini: " ++ exn_str e)) u
    = (Return (if k =? DEFAULT_MODEL then text else "✨ Using " ++ k ++ LF ++ LF ++ text), u')).
  { unfold try_except, generate_content, bind.
    fold (final_prompt g prompt include_system_prompt). rewrite Hg.
    cbn [py_eq_str py_str]. destruct (k =? DEFAULT_MODEL); reflexivity. }
  unfold call_gemini. cbn [py_truthy py_eq_str].
  destruct (negb (k =? EmptyString) && negb (k =? MODEL_NAME g)) eqn:Hsel.
  - unfold lift, not_in_models. rewrite Hk. cbn [negb].
    change (try_except (generate_content g (JStr k) prompt temperature include_system_prompt)
              (fun e => ret ("Error calling Gemini: " ++ exn_str e)) u
            = (Return (if k =? DEFAULT_MODEL then text else "✨ Using " ++ k ++ LF ++ LF ++ text), u')).
    exact Hgen.
  - assert (Hk' : k = MODEL_NAME g).
    { apply andb_false_iff in Hsel as [Hs | Hs]; apply negb_false_iff in Hs;
        apply String.eqb_eq in Hs; [subst k; discriminate Hk | exact Hs]. }
    rewrite <- Hk'. exact Hgen.
Qed.

(** (X19) When no system prompt is loaded, or when the
    [include_system_prompt] argument is falsy, the upstream call that
    [call_gemini] makes receives the prompt itself, unchanged; the call then
    goes exactly as with [include_system_prompt] false. *)
Theorem system_prompt_needs_both :
  forall (g : globals) (prompt temperature model_name include_system_prompt : json)
         (k : string) (u : U),
    DEFAULT_SYSTEM_PROMPT g = EmptyString \/ py_truthy include_system_prompt = false ->
    model_used g model_name = Some k ->
    call_gemini g prompt temperature model_name include_system_prompt u =
      match generate (JStr k) prompt temperature 8192 u with
      | (Return text, u') =>
          (Return (if k =? DEFAULT_MODEL then text else "✨ Using " ++ k ++ LF ++ LF ++ text), u')
      | (Raise e, u') => (Return ("Error calling Gemini: " ++ exn_str e), u')
      end
    /\ call_gemini g prompt temperature model_name include_system_prompt u =
       call_gemini g prompt temperature model_name (JBool false) u.
Proof.
  intros g prompt temperature model_name include_system_prompt k u H Hm.
  assert (Hfp : final_prompt g prompt include_system_prompt = prompt).
  { unfold final_prompt. destruct H as [-> | ->]; [rewrite andb_false_r |]; reflexivity. }
  rewrite (call_gemini_model_used g prompt temperature model_name include_system_prompt k u Hm).
  rewrite (call_gemini_model_used g prompt temperature model_name (JBool false) k u Hm).
  rewrite Hfp. split; reflexivity.
Qed.

(** ** The advertised schema against the handler (lines 107-199 and 252-292) *)

(** Evaluates in [H] the lookups of fixed keys, leaving the comparisons with
    the variable key [p] alone. *)
Ltac eval_fixed_keys H p :=
  repeat (cbn [member dict_lookup] in H;
          match type of H with
          | context [String.eqb ?a ?b] =>
              lazymatch b with
              | p => fail
              | _ => let r := eval vm_compute in (String.eqb a b) in
                     change (String.eqb a b) with r in H
              end
          end);
  cbn [member dict_lookup] in H.

(** (X20) The defaults that [tools/list] advertises are the defaults
    [tools/call] applies: for every advertised tool and every parameter whose
    schema has a [default] member (temperature 0.5, model [MODEL_NAME],
    include_system_prompt true, focus [general], context the empty string),
    omitting the parameter gives the same response, and the same upstream
    call, as passing the advertised default. *)
Theorem advertised_defaults_are_applied :
  forall (g : globals) (request_id tool default : json) (param : string)
         (arguments : list (string * json)) (u : U),
    GEMINI_AVAILABLE g = true ->
    In tool (tools g) ->
    schema_default tool param = Some default ->
    dict_lookup arguments param = None ->
    handle_tool_call g request_id
      (JDict [("name", tool_name_of tool); ("arguments", JDict arguments)]) u =
    handle_tool_call g request_id
      (JDict [("name", tool_name_of tool); ("arguments", JDict ((param, default) :: arguments))]) u.
Proof.
  intros g request_id tool default param arguments u Ha Hin Hd Hmiss.
  unfold tools in Hin. rewrite Ha in Hin. cbn [In] in Hin.
  destruct Hin as [<- | [<- | [<- | []]]];
    unfold schema_default, ask_gemini_tool, gemini_code_review_tool, gemini_brainstorm_tool in Hd;
    eval_fixed_keys Hd param;
    repeat match type of Hd with
           | context [?k =? param] =>
               destruct (String.eqb_spec k param) as [<- | _];
               [ cbn [member dict_lookup String.eqb Ascii.eqb Bool.eqb] in Hd
               | cbn [member dict_lookup] in Hd ]
           end;
    try discriminate Hd; injection Hd as <-;
    unfold handle_tool_call; cbn [py_get lift bind tool_name_of ask_gemini_tool
                                    gemini_code_review_tool gemini_brainstorm_tool];
    unfold try_except, bind, dict_get;
    cbn [dict_lookup String.eqb Ascii.eqb Bool.eqb py_eq_str]; rewrite Ha; cbn [negb lift py_get];
    unfold dict_get; cbn [dict_lookup String.eqb Ascii.eqb Bool.eqb]; rewrite Hmiss;
    try reflexivity.
  (* the model parameter: the advertised default is the selected model *)
  unfold call_gemini. cbn [py_truthy py_eq_str]. rewrite String.eqb_refl, andb_false_r.
  reflexivity.
Qed.

End Server.

(** * Concrete runs *)







(** (C1) Where the claim fails: the empty string is not a known model, yet
    [ask_gemini] with [model] set to it calls the selected model and relays its
    answer, which lists no model. *)
Lemma ask_empty_model_counterexample :
  startup sample_env = Running available_globals
  /\ known_model EmptyString = false
  /\ handle_tool_call nat pong_generate unused_float_repr plain_str_repr available_globals
       (JInt 5) (JDict (call_params "ask_gemini"
                          [("prompt", JStr "hi"); ("model", JStr EmptyString)])) 0%nat =
     (Return (tool_result (JInt 5) "pong"), 1%nat)
  /\ lists_known_models (RESPONSE_MARKER ++ "pong") = false.
Proof. repeat split; vm_compute; reflexivity. Qed.

(** (C1) [ask_gemini] with a model name that is not known. *)
Lemma ask_unknown_model_is_tool_result_witness :
  startup sample_env = Running available_globals
  /\ known_model "gpt-4" = false
  /\ handle_tool_call nat pong_generate unused_float_repr plain_str_repr available_globals
       (JInt 5) (JDict (call_params "ask_gemini" [("prompt", JStr "hi"); ("model", JStr "gpt-4")]))
       0%nat =
     (Return (tool_result (JInt 5)
                (unknown_model_text unused_float_repr plain_str_repr (JStr "gpt-4"))), 0%nat)
  /\ lists_known_models
       (RESPONSE_MARKER ++ unknown_model_text unused_float_repr plain_str_repr (JStr "gpt-4")) = true.
Proof.
  split; [reflexivity | split; [reflexivity |]].
  destruct (ask_unknown_model_is_tool_result nat pong_generate unused_float_repr plain_str_repr
              sample_env available_globals (JInt 5)
              (call_params "ask_gemini" [("prompt", JStr "hi"); ("model", JStr "gpt-4")])
              [("prompt", JStr "hi"); ("model", JStr "gpt-4")] "gpt-4" 0%nat
              eq_refl eq_refl eq_refl eq_refl eq_refl
              (fun H : "gpt-4" = EmptyString => eq_ind "gpt-4"
                 (fun s => match s with EmptyString => False | String _ _ => True end) I _ H)
              eq_refl) as [Hcall [_ [_ Hlists]]].
  split; [exact Hcall | exact Hlists].
Defined.

(** (C3) Where the claim fails: the upstream raises, and the answer is a
    success envelope carrying the failure as text. *)
Lemma upstream_failure_counterexample :
  fst (failing_generate (JStr "gemini-2.0-flash") (JStr "hi") (JFloat 0.5%float) 8192 0%nat)
    = Raise (UpstreamError "429 quota exceeded")
  /\ handle_tool_call nat failing_generate unused_float_repr plain_str_repr available_globals
       (JInt 6) (JDict (call_params "ask_gemini" [("prompt", JStr "hi")])) 0%nat =
     (Return (tool_result (JInt 6) "Error calling Gemini: 429 quota exceeded"), 1%nat)
  /\ is_result_envelope (tool_result (JInt 6) "Error calling Gemini: 429 quota exceeded") = true
  /\ is_error_envelope (tool_result (JInt 6) "Error calling Gemini: 429 quota exceeded") = false.
Proof. repeat split; vm_compute; reflexivity. Qed.

(** (C3) [ask_gemini] with a prompt that the upstream refuses, on an upstream
    that answers other prompts. *)
Lemma upstream_failure_is_tool_result_witness :
  model_call_arguments unused_float_repr plain_str_repr "ask_gemini"
    [("prompt", JStr "tell me a secret")]
    = Some (JStr "tell me a secret", JFloat 0.5%float, JNull, JBool true)
  /\ model_used available_globals JNull = Some "gemini-2.0-flash"
  /\ refusing_generate (JStr "gemini-2.0-flash") (JStr "tell me a secret") (JFloat 0.5%float)
       8192 0%nat = (Raise (UpstreamError "400 prompt was blocked"), 1%nat)
  /\ refusing_generate (JStr "gemini-2.0-flash") (JStr "hi") (JFloat 0.5%float) 8192 0%nat
     = (Return "pong", 1%nat)
  /\ handle_tool_call nat refusing_generate unused_float_repr plain_str_repr available_globals
       (JInt 6) (JDict (call_params "ask_gemini" [("prompt", JStr "tell me a secret")])) 0%nat =
     (Return (tool_result (JInt 6) "Error calling Gemini: 400 prompt was blocked"), 1%nat).
Proof.
  split; [reflexivity | split; [reflexivity | split; [reflexivity | split; [reflexivity |]]]].
  apply (upstream_failure_is_tool_result nat refusing_generate unused_float_repr plain_str_repr
           available_globals (JInt 6)
           (call_params "ask_gemini" [("prompt", JStr "tell me a secret")])
           [("prompt", JStr "tell me a secret")] "ask_gemini"
           (JStr "tell me a secret") (JFloat 0.5%float) JNull (JBool true)
           "gemini-2.0-flash" (UpstreamError "400 prompt was blocked") 0%nat 1%nat);
    reflexivity.
Defined.

(** (C4) Where the claim fails: [ask_gemini] without [prompt], [code review]
    without [code] and [brainstorm] without [topic] are all answered by
    success envelopes. *)
Lemma missing_required_argument_counterexample :
  handle_tool_call nat pong_generate unused_float_repr plain_str_repr available_globals
    (JInt 7) (JDict (call_params "ask_gemini" [])) 0%nat =
  (Return (tool_result (JInt 7) "pong"), 1%nat)
  /\ handle_tool_call nat pong_generate unused_float_repr plain_str_repr available_globals
       (JInt 7) (JDict (call_params "gemini_code_review" [])) 0%nat =
     (Return (tool_result (JInt 7) "pong"), 1%nat)
  /\ handle_tool_call nat pong_generate unused_float_repr plain_str_repr available_globals
       (JInt 7) (JDict (call_params "gemini_brainstorm" [])) 0%nat =
     (Return (tool_result (JInt 7) "pong"), 1%nat)
  /\ is_error_envelope (tool_result (JInt 7) "pong") = false.
Proof. repeat split; vm_compute; reflexivity. Qed.

(** (C4) [ask_gemini] called with a temperature and no prompt. *)
Lemma missing_required_argument_is_defaulted_witness :
  In ("ask_gemini", "prompt")
     [("ask_gemini", "prompt"); ("gemini_code_review", "code"); ("gemini_brainstorm", "topic")]
  /\ dict_lookup [("temperature", JInt 1)] "prompt" = None
  /\ (exists text u',
        handle_tool_call nat pong_generate unused_float_repr plain_str_repr available_globals
          (JInt 7) (JDict (call_params "ask_gemini" [("temperature", JInt 1)])) 0%nat =
        (Return (tool_result (JInt 7) text), u')).
Proof.
  split; [simpl; auto | split; [reflexivity |]].
  apply (missing_required_argument_is_defaulted nat pong_generate unused_float_repr plain_str_repr
           available_globals (JInt 7) (call_params "ask_gemini" [("temperature", JInt 1)])
           [("temperature", JInt 1)] "ask_gemini" "prompt" 0%nat).
  - reflexivity.
  - simpl; auto.
  - reflexivity.
  - reflexivity.
Defined.


(** ** Further runs *)

(** A brainstorm request on an available server: one line, with the
    request's id, whose text starts with the response marker; the upstream
    received the topic wrapped in the brainstorm template. *)
Example brainstorm_end_to_end :
  main nat echo_generate unused_float_repr plain_str_repr available_globals
    [Parsed (JDict (request (JInt 1) "tools/call"
                      (JDict (call_params "gemini_brainstorm" [("topic", JStr "caching")]))))]
    0%nat =
  ([tool_result (JInt 1)
      ("Let's brainstorm about: caching" ++ LF ++ LF
       ++ "Provide creative ideas, alternatives, and considerations.")], 1%nat).
Proof. vm_compute. reflexivity. Qed.

(** With the client unavailable, [server_info] returns the recorded failure
    as a result, and no model call is made. *)
Example server_info_when_unavailable :
  handle_tool_call nat pong_generate unused_float_repr plain_str_repr unavailable_globals
    (JStr "a") (JDict (call_params "server_info" [])) 0%nat =
  (Return (tool_result (JStr "a") "Server v1.0.0 - Gemini error: No module named 'google'"), 0%nat).
Proof. vm_compute. reflexivity. Qed.

(** A line that decodes to a number after a request was handled: the last
    handler answers it with the id of the earlier request. *)
Example non_object_line_after_a_request :
  main nat pong_generate unused_float_repr plain_str_repr available_globals
    [Parsed (JDict (request (JInt 1) "initialize" (JDict []))); Parsed (JInt 5)] 0%nat =
  ([handle_initialize (JInt 1);
    error_envelope (JInt 1) (-32603) "Internal error: 'int' object has no attribute 'get'"],
   0%nat).
Proof. vm_compute. reflexivity. Qed.

(** Params that are not a mapping: [params.get] raises outside the [try] of
    [handle_tool_call], and the loop's last handler answers. *)
Example tools_call_with_null_params :
  main nat pong_generate unused_float_repr plain_str_repr available_globals
    [Parsed (JDict (request (JInt 1) "tools/call" JNull))] 0%nat =
  ([error_envelope (JInt 1) (-32603) "Internal error: 'NoneType' object has no attribute 'get'"],
   0%nat).
Proof. vm_compute. reflexivity. Qed.

(** An unknown [GEMINI_MODEL] is replaced by the default at start-up. *)
Example startup_replaces_unknown_model :
  startup {| genai_import_error := None; GEMINI_API_KEY := Some "sample-key";
             GEMINI_MODEL := Some "gemini-9"; genai_configure_error := None;
             stderr_print_error := fun _ => None;
             genai_model_error := fun _ => None;
             system_prompt_path := "/home/dev/.claude-mcp-servers/gemini-collab/GEMINI.md";
             system_prompt_text := None |}
  = Running available_globals.
Proof. reflexivity. Qed.

Example basename_of_prompt_file :
  basename "/home/dev/.claude-mcp-servers/gemini-collab/GEMINI.md" = "GEMINI.md".
Proof. reflexivity. Qed.

(** * Concrete runs of the further properties *)

(** (X2) [GEMINI_MODEL] names an unknown model and the warning can be
    printed: the client is available on the default model. *)
Lemma startup_running_state_witness :
  startup (override_env "gemini-9" None) = Running available_globals
  /\ MODEL_NAME available_globals = DEFAULT_MODEL
  /\ known_model (MODEL_NAME available_globals) = true
  /\ stderr_print_error (override_env "gemini-9" None) (unknown_model_warning "gemini-9") = None.
Proof.
  split; [reflexivity |].
  destruct (startup_running_state (override_env "gemini-9" None) available_globals eq_refl)
    as [Havailable _].
  destruct (Havailable eq_refl) as [Hname [Hknown [_ Hprinted]]].
  split; [exact Hname | split; [exact Hknown | exact (Hprinted eq_refl)]].
Defined.



(** (X5) The line [[]] read after a request with id 1 was handled. *)
Lemma non_object_line_uses_last_id_witness :
  is_dict (JList []) = false
  /\ main_iteration nat pong_generate unused_float_repr plain_str_repr available_globals
       (Parsed (JList [])) (Some (JInt 1)) 0%nat =
     ([error_envelope (JInt 1) (-32603) "Internal error: 'list' object has no attribute 'get'"],
      Some (JInt 1), 0%nat).
Proof.
  split; [reflexivity |].
  apply (non_object_line_uses_last_id nat pong_generate unused_float_repr plain_str_repr
           available_globals (JList []) (Some (JInt 1)) 0%nat).
  reflexivity.
Defined.

(** (X11) A brainstorm call with [null] arguments on an unavailable server. *)
Lemma unavailable_model_tools_report_error_text_witness :
  GEMINI_AVAILABLE unavailable_globals = false
  /\ handle_tool_call nat pong_generate unused_float_repr plain_str_repr unavailable_globals
       (JInt 10) (JDict [("name", JStr "gemini_brainstorm"); ("arguments", JNull)]) 0%nat =
     (Return (tool_result (JInt 10) "Gemini not available: No module named 'google'"), 0%nat).
Proof.
  split; [reflexivity |].
  apply (unavailable_model_tools_report_error_text nat pong_generate unused_float_repr
           plain_str_repr unavailable_globals (JInt 10)
           [("name", JStr "gemini_brainstorm"); ("arguments", JNull)] "gemini_brainstorm" 0%nat).
  - reflexivity.
  - reflexivity.
  - simpl; auto.
Defined.

(** (X12) [server_info] on an unavailable server. *)
Lemma server_info_always_answers_witness :
  dict_get (call_params "server_info" []) "name" JNull = JStr "server_info"
  /\ handle_tool_call nat pong_generate unused_float_repr plain_str_repr unavailable_globals
       (JInt 11) (JDict (call_params "server_info" [])) 0%nat =
     (Return (tool_result (JInt 11) (server_info unavailable_globals)), 0%nat)
  /\ contains "No module named 'google'" (server_info unavailable_globals) = true.
Proof.
  split; [reflexivity |].
  destruct (server_info_always_answers nat pong_generate unused_float_repr plain_str_repr
              unavailable_globals (JInt 11) (call_params "server_info" []) 0%nat eq_refl)
    as [Hcall Herror].
  split; [exact Hcall | exact (Herror eq_refl)].
Defined.

(** (X13) [ask_gemini] whose arguments are a string. *)
Lemma arguments_not_mapping_is_error_witness :
  is_dict (dict_get [("name", JStr "ask_gemini"); ("arguments", JStr "hi")] "arguments" (JDict []))
    = false
  /\ handle_tool_call nat pong_generate unused_float_repr plain_str_repr available_globals
       (JInt 12) (JDict [("name", JStr "ask_gemini"); ("arguments", JStr "hi")]) 0%nat =
     (Return (error_envelope (JInt 12) (-32603) "'str' object has no attribute 'get'"), 0%nat).
Proof.
  split; [reflexivity |].
  apply (arguments_not_mapping_is_error nat pong_generate unused_float_repr plain_str_repr
           available_globals (JInt 12)
           [("name", JStr "ask_gemini"); ("arguments", JStr "hi")] "ask_gemini" 0%nat).
  - reflexivity.
  - reflexivity.
  - simpl; auto.
  - reflexivity.
Defined.

(** (X14) The status tool advertised by an unavailable server, called
    without arguments. *)
Lemma advertised_tools_are_answered_witness :
  In server_info_tool (tools unavailable_globals)
  /\ exists (text : string) (u' : nat),
       handle_tool_call nat pong_generate unused_float_repr plain_str_repr unavailable_globals
         (JInt 15) (JDict [("name", JStr "server_info")]) 0%nat =
       (Return (tool_result (JInt 15) text), u').
Proof.
  split; [simpl; auto |].
  apply (advertised_tools_are_answered nat pong_generate unused_float_repr plain_str_repr
           unavailable_globals (JInt 15) server_info_tool [("name", JStr "server_info")] [] 0%nat).
  - simpl; auto.
  - reflexivity.
  - reflexivity.
Defined.

(** (X16) [model] set to [0]. *)
Lemma falsy_or_selected_model_is_default_witness :
  py_truthy (JInt 0) = false
  /\ call_gemini nat pong_generate unused_float_repr plain_str_repr available_globals
       (JStr "hi") (JFloat 0.5%float) (JInt 0) (JBool true) 0%nat =
     call_gemini nat pong_generate unused_float_repr plain_str_repr available_globals
       (JStr "hi") (JFloat 0.5%float) JNull (JBool true) 0%nat.
Proof.
  split; [reflexivity |].
  apply (falsy_or_selected_model_is_default nat pong_generate unused_float_repr plain_str_repr
           available_globals (JStr "hi") (JFloat 0.5%float) (JInt 0) (JBool true) 0%nat).
  left; reflexivity.
Defined.

(** (X17) [model] set to the number 5. *)
Lemma unknown_model_never_reaches_upstream_witness :
  py_truthy (JInt 5) = true
  /\ exists text : string,
       call_gemini nat pong_generate unused_float_repr plain_str_repr available_globals
         (JStr "hi") (JFloat 0.5%float) (JInt 5) (JBool true) 0%nat = (Return text, 0%nat)
       /\ (hashable (JInt 5) = true ->
           text = unknown_model_text unused_float_repr plain_str_repr (JInt 5)
           /\ lists_known_models text = true).
Proof.
  split; [reflexivity |].
  apply (unknown_model_never_reaches_upstream nat pong_generate unused_float_repr plain_str_repr
           available_globals (JStr "hi") (JFloat 0.5%float) (JInt 5) (JBool true) 0%nat).
  - reflexivity.
  - reflexivity.
  - intros k H; discriminate H.
Defined.

(** (X18) A call for a known model that is not the default. *)
Lemma model_banner_unless_default_witness :
  known_model "gemini-1.5-flash" = true
  /\ call_gemini nat pong_generate unused_float_repr plain_str_repr available_globals
       (JStr "hi") (JFloat 0.5%float) (JStr "gemini-1.5-flash") (JBool true) 0%nat =
     (Return ("✨ Using gemini-1.5-flash" ++ LF ++ LF ++ "pong"), 1%nat).
Proof.
  split; [reflexivity |].
  apply (model_banner_unless_default nat pong_generate unused_float_repr plain_str_repr
           available_globals (JStr "hi") (JFloat 0.5%float) (JBool true)
           "gemini-1.5-flash" "pong" 0%nat 1%nat); reflexivity.
Defined.

(** (X19) A system prompt is loaded and the flag is false: the upstream,
    which answers with the prompt it received, received [hi]. *)
Lemma system_prompt_needs_both_witness :
  py_truthy (JBool false) = false
  /\ DEFAULT_SYSTEM_PROMPT prompted_globals = "Answer in one sentence."
  /\ model_used prompted_globals JNull = Some "gemini-2.0-flash"
  /\ call_gemini nat echo_generate unused_float_repr plain_str_repr prompted_globals
       (JStr "hi") (JFloat 0.5%float) JNull (JBool false) 0%nat = (Return "hi", 1%nat).
Proof.
  split; [reflexivity | split; [reflexivity | split; [reflexivity |]]].
  destruct (system_prompt_needs_both nat echo_generate unused_float_repr plain_str_repr
              prompted_globals (JStr "hi") (JFloat 0.5%float) JNull (JBool false)
              "gemini-2.0-flash" 0%nat (or_intror eq_refl) eq_refl) as [Hsent _].
  exact Hsent.
Defined.

(** (X20) [gemini_code_review] without [focus] against [focus] set to the
    advertised default. *)
Lemma advertised_defaults_are_applied_witness :
  In gemini_code_review_tool (tools available_globals)
  /\ schema_default gemini_code_review_tool "focus" = Some (JStr "general")
  /\ handle_tool_call nat echo_generate unused_float_repr plain_str_repr available_globals
       (JInt 13) (JDict (call_params "gemini_code_review" [("code", JStr "x = 1")])) 0%nat =
     handle_tool_call nat echo_generate unused_float_repr plain_str_repr available_globals
       (JInt 13)
       (JDict (call_params "gemini_code_review"
                 [("focus", JStr "general"); ("code", JStr "x = 1")])) 0%nat.
Proof.
  split; [simpl; auto | split; [reflexivity |]].
  apply (advertised_defaults_are_applied nat echo_generate unused_float_repr plain_str_repr
           available_globals (JInt 13) gemini_code_review_tool (JStr "general") "focus"
           [("code", JStr "x = 1")] 0%nat).
  - reflexivity.
  - simpl; auto.
  - reflexivity.
  - reflexivity.
Defined.

(** (X21) A code review with and without a [model] argument. *)
Lemma tool_reads_only_its_parameters_witness :
  In ("gemini_code_review", ["code"; "focus"])
     [("ask_gemini", ["prompt"; "temperature"; "model"; "include_system_prompt"]);
      ("gemini_code_review", ["code"; "focus"]);
      ("gemini_brainstorm", ["topic"; "context"]);
      ("server_info", [])]
  /\ handle_tool_call nat echo_generate unused_float_repr plain_str_repr available_globals
       (JInt 14)
       (JDict (call_params "gemini_code_review"
                 [("code", JStr "x = 1"); ("model", JStr "gemini-1.5-flash")])) 0%nat =
     handle_tool_call nat echo_generate unused_float_repr plain_str_repr available_globals
       (JInt 14) (JDict (call_params "gemini_code_review" [("code", JStr "x = 1")])) 0%nat.
Proof.
  split; [simpl; auto |].
  apply (tool_reads_only_its_parameters nat echo_generate unused_float_repr plain_str_repr
           available_globals (JInt 14) "gemini_code_review" ["code"; "focus"]
           [("code", JStr "x = 1"); ("model", JStr "gemini-1.5-flash")]
           [("code", JStr "x = 1")] 0%nat).
  - simpl; auto.
  - intros k [<- | [<- | []]]; reflexivity.
Defined.

(** With a system prompt loaded and the flag left at its default, the
    upstream receives the system prompt, a separator and the prompt. *)
Example system_prompt_is_prepended :
  handle_tool_call nat echo_generate unused_float_repr plain_str_repr prompted_globals
    (JInt 1) (JDict (call_params "ask_gemini" [("prompt", JStr "hi")])) 0%nat =
  (Return (tool_result (JInt 1)
             ("Answer in one sentence." ++ LF ++ LF ++ "---" ++ LF ++ LF
              ++ "User Request:" ++ LF ++ "hi")), 1%nat).
Proof. vm_compute. reflexivity. Qed.

(** [GEMINI_MODEL] names an unknown model and standard error cannot encode
    the warning: the client is unavailable, the codec error is recorded and
    [MODEL_NAME] is still the unknown name. *)
Example startup_warning_cannot_be_printed :
  startup (override_env "gemini-9"
             (Some "'ascii' codec can't encode characters in position 0-1: ordinal not in range(128)"))
  = Running {| GEMINI_AVAILABLE := false;
               GEMINI_ERROR := "'ascii' codec can't encode characters in position 0-1: ordinal not in range(128)";
               MODEL_NAME := "gemini-9"; DEFAULT_SYSTEM_PROMPT := EmptyString;
               SYSTEM_PROMPT_FILE := "/home/dev/.claude-mcp-servers/gemini-collab/GEMINI.md" |}.
Proof. reflexivity. Qed.

(** A line that cannot be decoded for another reason than
    [JSONDecodeError], read before any request: nothing is printed. *)
Example unreadable_first_line :
  main nat pong_generate unused_float_repr plain_str_repr available_globals
    [Unreadable (UnicodeDecodeError
       "'utf-8' codec can't decode byte 0xff in position 0: invalid start byte")] 0%nat
  = ([], 0%nat).
Proof. reflexivity. Qed.
